(** * Verification of [process_metro_complaints.py]

    A shallow embedding of the Beijing-metro complaint processing script
    (class [MetroComplaintProcessor] and [main]) together with the
    properties its specification states about it.

    Python objects are modelled by the inductive type [pyval]; Python
    [str] values are lists of Unicode code points; the side effects of the
    script (console output, model calls, sleeping, reading and writing the
    spreadsheet) are recorded as a trace of [event]s by a small
    state / exception / output monad. *)

From Stdlib Require Import List NArith ZArith Arith Bool String Ascii Lia.
From Stdlib Require Import Sorting.Sorted Sorting.Permutation.
Import ListNotations.

(* ================================================================== *)
(** ** Python strings *)
(* ================================================================== *)

Module PyStr.

(** A Python [str]: the sequence of its code points. *)
Definition pystr := list N.

Fixpoint eqb (a b : pystr) : bool :=
  match a, b with
  | [], [] => true
  | x :: a', y :: b' => N.eqb x y && eqb a' b'
  | _, _ => false
  end.

(** Decoder used to write [str] literals of the script as UTF-8 text. *)
Fixpoint utf8_decode (bs : list N) : pystr :=
  match bs with
  | [] => []
  | b0 :: r0 =>
    if (b0 <? 128)%N then b0 :: utf8_decode r0
    else
      match r0 with
      | [] => []
      | b1 :: r1 =>
        if (b0 <? 224)%N
        then ((b0 mod 32) * 64 + b1 mod 64)%N :: utf8_decode r1
        else
          match r1 with
          | [] => []
          | b2 :: r2 =>
            if (b0 <? 240)%N
            then ((b0 mod 16) * 4096 + (b1 mod 64) * 64 + b2 mod 64)%N
                   :: utf8_decode r2
            else
              match r2 with
              | [] => []
              | b3 :: r3 =>
                ((b0 mod 8) * 262144 + (b1 mod 64) * 4096
                 + (b2 mod 64) * 64 + b3 mod 64)%N :: utf8_decode r3
              end
          end
      end
  end.

Definition lit (s : string) : pystr :=
  utf8_decode (map N_of_ascii (list_ascii_of_string s)).

(** [str.isspace] on one character: the code points CPython classifies
    as whitespace, which are the ones [str.strip()] removes. *)
Definition isspace (c : N) : bool :=
  ((9 <=? c) && (c <=? 13)
   || (28 <=? c) && (c <=? 32)
   || (c =? 133) || (c =? 160) || (c =? 5760)
   || (8192 <=? c) && (c <=? 8202)
   || (c =? 8232) || (c =? 8233) || (c =? 8239) || (c =? 8287)
   || (c =? 12288))%N.

(** [s.lstrip()] *)
Fixpoint lstrip (s : pystr) : pystr :=
  match s with
  | [] => []
  | c :: s' => if isspace c then lstrip s' else s
  end.

(** [s.rstrip()] *)
Definition rstrip (s : pystr) : pystr := rev (lstrip (rev s)).

(** [s.strip()] *)
Definition strip (s : pystr) : pystr := rstrip (lstrip s).

(** Truthiness of a [str]: [bool(s)] is [False] exactly for [""]. *)
Definition truthy (s : pystr) : bool :=
  match s with [] => false | _ :: _ => true end.

End PyStr.

Import PyStr.

(* ================================================================== *)
(** ** Python values, exceptions and the tables of the script *)
(* ================================================================== *)

(** The objects a spreadsheet cell or a field of the model's answer can
    hold: [None], the float [nan] pandas uses for an empty cell, a [str],
    or a number. *)
Inductive pyval : Type :=
| VNone
| VNaN
| VStr (s : pystr)
| VNum (z : Z).

(** Python [==] on these objects ([nan] is not equal to itself). *)
Definition pyval_eqb (a b : pyval) : bool :=
  match a, b with
  | VNone, VNone => true
  | VStr s, VStr t => PyStr.eqb s t
  | VNum x, VNum y => Z.eqb x y
  | _, _ => false
  end.

(** [pd.isna] on a scalar. *)
Definition pd_isna (v : pyval) : bool :=
  match v with
  | VNone | VNaN => true
  | VStr _ | VNum _ => false
  end.

(** Instances of [Exception].  [CapabilityError] stands for whatever an
    external collaborator (the LM Studio client, the spreadsheet reader
    and writer) raises; the tag tells such errors apart. *)
Inductive exn : Type :=
| AttributeError (attr : string)
| KeyError (key : pystr)
| CapabilityError (tag : nat).

Inductive result (A : Type) : Type :=
| Ok (a : A)
| Raise (e : exn).
Arguments Ok {A} a.
Arguments Raise {A} e.

(** A pandas [Series] holding one spreadsheet row: label / value pairs. *)
Definition Series := list (pystr * pyval).

(** [row.get(key, default)] *)
Fixpoint Series_get (row : Series) (key : pystr) (default : pyval) : pyval :=
  match row with
  | [] => default
  | (k, v) :: row' => if PyStr.eqb k key then v else Series_get row' key default
  end.

(** [class ComplaintInfoSchema(BaseModel)]: four optional strings. *)
Record ComplaintInfoSchema : Type := {
  line : option pystr;
  location : option pystr;
  noise_type : option pystr;
  vibration_type : option pystr
}.

(** Reading an [Optional[str]] attribute gives [None] or a [str]. *)
Definition attr_value (o : option pystr) : pyval :=
  match o with
  | None => VNone
  | Some s => VStr s
  end.

(** What [response.parsed] can be: a [dict] (mapping style), a
    [ComplaintInfoSchema] object (object style), or plain text when the
    answer did not follow the schema. *)
Inductive parsed : Type :=
| PDict (d : list (string * pyval))
| PObj (o : ComplaintInfoSchema)
| PText (s : pystr).

(** [d.get(key)]: the value, or [None] for a missing key. *)
Fixpoint dict_get (d : list (string * pyval)) (key : string) : pyval :=
  match d with
  | [] => VNone
  | (k, v) :: d' => if String.eqb k key then v else dict_get d' key
  end.

(** Outcome of [self.model.respond(prompt, response_format=...)]
    followed by [response.parsed]. *)
Inductive respond_outcome : Type :=
| Responded (p : parsed)
| RespondRaises (e : exn).

(** The dictionary [extract_info_from_content] returns; its keys are
    ['线路'], ['小区/位置'], ['噪音类型'] and ['振动类型']. *)
Record ExtractedInfo : Type := {
  xinfo_line : pyval;
  xinfo_location : pyval;
  xinfo_noise_type : pyval;
  xinfo_vibration_type : pyval
}.

(** The dictionary [result_row] of [process_excel_file]: the two input
    columns followed by the four extracted ones. *)
Record ResultRow : Type := {
  row_content : pyval;
  row_phone : pyval;
  row_line : pyval;
  row_location : pyval;
  row_noise_type : pyval;
  row_vibration_type : pyval
}.

Definition col_content : pystr := lit "工单内容".
Definition col_phone : pystr := lit "来电号码".
Definition col_line : pystr := lit "线路".
Definition col_location : pystr := lit "小区/位置".
Definition col_noise_type : pystr := lit "噪音类型".
Definition col_vibration_type : pystr := lit "振动类型".

(** The keys of a [result_row], in insertion order. *)
Definition result_columns : list pystr :=
  [col_content; col_phone; col_line; col_location; col_noise_type;
   col_vibration_type].

(** [result_row[key]] for the keys a [result_row] has. *)
Definition ResultRow_get (key : pystr) : option (ResultRow -> pyval) :=
  if PyStr.eqb key col_content then Some row_content
  else if PyStr.eqb key col_phone then Some row_phone
  else if PyStr.eqb key col_line then Some row_line
  else if PyStr.eqb key col_location then Some row_location
  else if PyStr.eqb key col_noise_type then Some row_noise_type
  else if PyStr.eqb key col_vibration_type then Some row_vibration_type
  else None.

(** The result table: its column labels and its rows. *)
Record DataFrame : Type := {
  df_columns : list pystr;
  df_data : list ResultRow
}.

(** [pd.DataFrame(results)] on a list of dictionaries: the columns are
    the keys found in the records, so an empty list gives a frame without
    columns. *)
Definition DataFrame_of_records (results : list ResultRow) : DataFrame :=
  {| df_columns := match results with
                   | [] => []
                   | _ :: _ => result_columns
                   end;
     df_data := results |}.

(** [len(df)] *)
Definition df_len (df : DataFrame) : nat := List.length (df_data df).

(** [df[key]]: the column, or [KeyError] when the frame has no such
    column. *)
Definition df_getitem (df : DataFrame) (key : pystr) : result (list pyval) :=
  if existsb (PyStr.eqb key) (df_columns df) then
    match ResultRow_get key with
    | Some field => Ok (map field (df_data df))
    | None => Raise (KeyError key)
    end
  else Raise (KeyError key).

(** [column.notna().sum()] *)
Definition notna_sum (column : list pyval) : nat :=
  List.length (filter (fun v => negb (pd_isna v)) column).

(** Tally kept by [value_counts]: one entry per distinct value, in the
    order the values are first met. *)
Fixpoint tally_add (v : pyval) (t : list (pyval * nat)) : list (pyval * nat) :=
  match t with
  | [] => [(v, 1)]
  | (w, n) :: t' =>
    if pyval_eqb w v then (w, S n) :: t' else (w, n) :: tally_add v t'
  end.

Definition tally (column : list pyval) : list (pyval * nat) :=
  fold_left (fun t v => if pd_isna v then t else tally_add v t) column [].

(** [series.head(n)] *)
Definition head {A : Type} (n : nat) (l : list A) : list A := firstn n l.

(* ================================================================== *)
(** ** Effects *)
(* ================================================================== *)

(** What [print] writes to the console, one constructor per message of
    the script (the formatted text is not modelled, its arguments are). *)
Inductive message : Type :=
| MsgConnecting (model_name : pystr)
| MsgConnected
| MsgConnectFailed (e : exn)
| MsgModelCallFailed (e : exn)
| MsgReading (path : pystr)
| MsgRecordCount (n : nat)
| MsgProcessed (n : nat)
| MsgSaving (path : pystr)
| MsgDone
| MsgSaved (path : pystr)
| MsgStatsHeader
| MsgTotal (n : nat)
| MsgLineCount (n : nat)
| MsgLocationCount (n : nat)
| MsgNoiseCount (n : nat)
| MsgVibrationCount (n : nat)
| MsgLineDistHeader
| MsgNoiseDistHeader
| MsgDistEntry (value : pyval) (count : nat)
| MsgMainError (e : exn).

(** Observable actions of a run, in the order they happen.  The [tqdm]
    progress bar is display only and is left out. *)
Inductive event : Type :=
| EvPrint (m : message)
| EvConnect
| EvRespond (prompt : pystr)
| EvSleep (seconds : nat)
| EvReadExcel (path : pystr)
| EvToExcel (path : pystr) (df : DataFrame).

(** The collaborators of the script.  [ModelState] is the state of the
    language-model service behind the handle [self.model]; [respond]
    answers one prompt and moves that state; [lms_llm] is the outcome of
    connecting; [read_excel] and [to_excel] are the spreadsheet source and
    sink ([to_excel] gives the exception it raises, if any); [sort_values]
    is the descending sort pandas applies inside [value_counts]. *)
Record Env : Type := {
  ModelState : Type;
  respond : ModelState -> pystr -> respond_outcome * ModelState;
  lms_llm : result ModelState;
  read_excel : pystr -> result (list Series);
  to_excel : pystr -> DataFrame -> option exn;
  sort_values : list (pyval * nat) -> list (pyval * nat)
}.

Section Monad.

Variable St : Type.

(** A computation: from the state of the model service to a value or an
    exception, the new state, and the events emitted on the way. *)
Definition M (A : Type) : Type := St -> result A * St * list event.

Definition ret {A : Type} (a : A) : M A := fun s => (Ok a, s, []).

Definition raise {A : Type} (e : exn) : M A := fun s => (Raise e, s, []).

Definition bind {A B : Type} (c : M A) (k : A -> M B) : M B :=
  fun s =>
    match c s with
    | (Ok a, s1, out1) =>
      match k a s1 with
      | (r, s2, out2) => (r, s2, out1 ++ out2)
      end
    | (Raise e, s1, out1) => (Raise e, s1, out1)
    end.

(** [try: c  except Exception as e: handler e] *)
Definition try_except {A : Type} (c : M A) (handler : exn -> M A) : M A :=
  fun s =>
    match c s with
    | (Ok a, s1, out1) => (Ok a, s1, out1)
    | (Raise e, s1, out1) =>
      match handler e s1 with
      | (r, s2, out2) => (r, s2, out1 ++ out2)
      end
    end.

Definition emit (ev : event) : M unit := fun s => (Ok tt, s, [ev]).

Definition print (m : message) : M unit := emit (EvPrint m).

Definition lift {A : Type} (r : result A) : M A := fun s => (r, s, []).

End Monad.

Arguments ret {St A} a.
Arguments bind {St A B} c k.
Arguments try_except {St A} c handler.
Arguments raise {St A} e.
Arguments emit {St} ev.
Arguments print {St} m.
Arguments lift {St A} r.

Declare Scope py_scope.
Delimit Scope py_scope with py.
Notation "x <- c ;; k" := (bind c (fun x => k))
  (at level 61, c at next level, right associativity) : py_scope.
Notation "c ;; k" := (bind c (fun _ => k))
  (at level 61, right associativity) : py_scope.
Open Scope py_scope.

(* ================================================================== *)
(** ** The script *)
(* ================================================================== *)

Definition default_model_name : pystr := lit "qwen/qwen3-30b-a3b-mlx".

(** The all-[None] dictionary returned on skip and on failure. *)
Definition all_absent : ExtractedInfo :=
  {| xinfo_line := VNone;
     xinfo_location := VNone;
     xinfo_noise_type := VNone;
     xinfo_vibration_type := VNone |}.

(** [convert_null]: the string ['null'] becomes [None]. *)
Definition convert_null (value : pyval) : pyval :=
  if pyval_eqb value (VStr (lit "null")) then VNone else value.

Definition newline : pystr := [10%N].

(** The f-string of [extract_info_from_content] around [{content}]. *)
Definition prompt_head : pystr :=
  lit "你是一个数据提取专家。请分析北京地铁投诉工单内容，提取关键信息。"
  ++ newline ++ newline ++ lit "工单内容：".

Definition prompt_tail : pystr :=
  newline ++ newline
  ++ lit "提取信息：" ++ newline
  ++ lit "1. line: 地铁线路（如1号线、2号线、13号线等）" ++ newline
  ++ lit "2. location: 小区名称、地点或站点" ++ newline
  ++ lit "3. noise_type: 噪音问题类型（如列车噪音、施工噪音、机械噪音等）"
  ++ newline
  ++ lit "4. vibration_type: 振动问题类型（如列车振动、施工振动等）"
  ++ newline ++ newline
  ++ lit "没有明确提及的信息返回null。".

Definition build_prompt (content : pystr) : pystr :=
  prompt_head ++ content ++ prompt_tail.

Definition input_file : pystr := lit "data/2024全年表振动噪音-筛选_增强版2.xlsx".
Definition output_file : pystr := lit "data/处理结果_地铁投诉分析.xlsx".

(** Computations of the processor: the state is that of the model
    service behind [self.model]. *)
Definition Proc (W : Env) (A : Type) : Type := M (ModelState W) A.

Section Script.

Variable W : Env.

(** [self.model.respond(prompt, response_format=ComplaintInfoSchema)]
    and the read of [response.parsed]. *)
Definition model_respond (prompt : pystr) : Proc W parsed :=
  fun s =>
    match respond W s prompt with
    | (Responded p, s') => (Ok p, s', [EvRespond prompt])
    | (RespondRaises e, s') => (Raise e, s', [EvRespond prompt])
    end.

(** The normalisation of [response.parsed], both branches of
    [isinstance(result, dict)]. *)
Definition normalize (res : parsed) : Proc W ExtractedInfo :=
  match res with
  | PDict d =>
    ret {| xinfo_line := convert_null (dict_get d "line");
           xinfo_location := convert_null (dict_get d "location");
           xinfo_noise_type := convert_null (dict_get d "noise_type");
           xinfo_vibration_type :=
             convert_null (dict_get d "vibration_type") |}
  | PObj o =>
    ret {| xinfo_line := convert_null (attr_value (line o));
           xinfo_location := convert_null (attr_value (location o));
           xinfo_noise_type := convert_null (attr_value (noise_type o));
           xinfo_vibration_type :=
             convert_null (attr_value (vibration_type o)) |}
  | PText _ => raise (AttributeError "line")
  end.

(** [MetroComplaintProcessor.extract_info_from_content] *)
Definition extract_info_from_content (content : pyval) : Proc W ExtractedInfo :=
  if pd_isna content then ret all_absent
  else
    match content with
    | VStr s =>
      if negb (truthy (strip s)) then ret all_absent
      else
        let prompt := build_prompt s in
        try_except
          (res <- model_respond prompt ;;
           normalize res)
          (fun e =>
             print (MsgModelCallFailed e) ;;
             ret all_absent)
    | _ =>
      (* [content.strip()] on an object that is not a [str] *)
      raise (AttributeError "strip")
    end.

(** The body of the [for idx, row in df.iterrows()] loop followed by
    the remaining iterations; [results] is the list built so far. *)
Fixpoint process_rows (idx : nat) (rows : list Series)
         (results : list ResultRow) : Proc W (list ResultRow) :=
  match rows with
  | [] => ret results
  | row :: rest =>
    let content := Series_get row col_content (VStr []) in
    let phone := Series_get row col_phone (VStr []) in
    extracted_info <- extract_info_from_content content ;;
    let result_row :=
      {| row_content := content;
         row_phone := phone;
         row_line := xinfo_line extracted_info;
         row_location := xinfo_location extracted_info;
         row_noise_type := xinfo_noise_type extracted_info;
         row_vibration_type := xinfo_vibration_type extracted_info |} in
    let results' := results ++ [result_row] in
    (if (idx + 1) mod 10 =? 0
     then emit (EvSleep 1) ;; print (MsgProcessed (idx + 1))
     else ret tt) ;;
    process_rows (S idx) rest results'
  end.

(** [series.value_counts()]: tally of the non-missing values, sorted by
    the library. *)
Definition value_counts (column : list pyval) : list (pyval * nat) :=
  sort_values W (tally column).

(** [for value, count in counts.head(10).items(): print(...)] *)
Fixpoint print_items (items : list (pyval * nat)) : Proc W unit :=
  match items with
  | [] => ret tt
  | (value, count) :: items' =>
    print (MsgDistEntry value count) ;; print_items items'
  end.

(** [MetroComplaintProcessor._print_statistics] *)
Definition _print_statistics (df : DataFrame) : Proc W unit :=
  print MsgStatsHeader ;;
  print (MsgTotal (df_len df)) ;;
  c <- lift (df_getitem df col_line) ;;
  print (MsgLineCount (notna_sum c)) ;;
  c <- lift (df_getitem df col_location) ;;
  print (MsgLocationCount (notna_sum c)) ;;
  c <- lift (df_getitem df col_noise_type) ;;
  print (MsgNoiseCount (notna_sum c)) ;;
  c <- lift (df_getitem df col_vibration_type) ;;
  print (MsgVibrationCount (notna_sum c)) ;;
  c <- lift (df_getitem df col_line) ;;
  (if 0 <? notna_sum c
   then print MsgLineDistHeader ;;
        c <- lift (df_getitem df col_line) ;;
        print_items (head 10 (value_counts c))
   else ret tt) ;;
  c <- lift (df_getitem df col_noise_type) ;;
  (if 0 <? notna_sum c
   then print MsgNoiseDistHeader ;;
        c <- lift (df_getitem df col_noise_type) ;;
        print_items (head 10 (value_counts c))
   else ret tt).

(** [MetroComplaintProcessor.process_excel_file] *)
Definition process_excel_file (input output : pystr) : Proc W unit :=
  print (MsgReading input) ;;
  emit (EvReadExcel input) ;;
  df <- lift (read_excel W input) ;;
  print (MsgRecordCount (List.length df)) ;;
  results <- process_rows 0 df [] ;;
  let result_df := DataFrame_of_records results in
  print (MsgSaving output) ;;
  emit (EvToExcel output result_df) ;;
  match to_excel W output result_df with
  | Some e => raise e
  | None =>
    print MsgDone ;;
    print (MsgSaved output) ;;
    _print_statistics result_df
  end.

(** [MetroComplaintProcessor.__init__] with [_initialize_model]: the
    connected handle, or the exception of [lms.llm()] raised again after
    the failure message. *)
Definition _initialize_model (model_name : pystr)
  : result (ModelState W) * list event :=
  match lms_llm W with
  | Ok model =>
    (Ok model,
     [EvPrint (MsgConnecting model_name); EvConnect; EvPrint MsgConnected])
  | Raise e =>
    (Raise e,
     [EvPrint (MsgConnecting model_name); EvConnect;
      EvPrint (MsgConnectFailed e)])
  end.

(** [main]: the outcome of the run and everything it did. *)
Definition main : result unit * list event :=
  match _initialize_model default_model_name with
  | (Raise e, out0) => (Raise e, out0 ++ [EvPrint (MsgMainError e)])
  | (Ok model, out0) =>
    match process_excel_file input_file output_file model with
    | (Ok _, _, out1) => (Ok tt, out0 ++ out1)
    | (Raise e, _, out1) =>
      (Raise e, out0 ++ out1 ++ [EvPrint (MsgMainError e)])
    end
  end.

End Script.

(* ================================================================== *)
(** ** Vocabulary of the statements *)
(* ================================================================== *)

(** The content cell of an input row, as [process_excel_file] reads it. *)
Definition content_of (row : Series) : pyval :=
  Series_get row col_content (VStr []).

(** The phone cell of an input row, as [process_excel_file] reads it. *)
Definition phone_of (row : Series) : pyval :=
  Series_get row col_phone (VStr []).

(** The output row built from an input row and its extracted fields. *)
Definition result_row_of (row : Series) (info : ExtractedInfo) : ResultRow :=
  {| row_content := content_of row;
     row_phone := phone_of row;
     row_line := xinfo_line info;
     row_location := xinfo_location info;
     row_noise_type := xinfo_noise_type info;
     row_vibration_type := xinfo_vibration_type info |}.

(** A content cell that is text or missing. *)
Definition text_or_missing (v : pyval) : Prop :=
  match v with
  | VNum _ => False
  | VNone | VNaN | VStr _ => True
  end.

(** Events of the pacing pause: the sleep and its milestone message. *)
Definition is_pacing (ev : event) : bool :=
  match ev with
  | EvSleep _ => true
  | EvPrint (MsgProcessed _) => true
  | _ => false
  end.


(** What the loop does after the record at 0-based position [idx]. *)
Definition pacing (idx : nat) : list event :=
  if (idx + 1) mod 10 =? 0
  then [EvSleep 1; EvPrint (MsgProcessed (idx + 1))]
  else [].


(** A model answer that counts as a failure of the capability: the call
    raised, or the parsed answer is not a four-field structure.  The
    exception [extract_info_from_content] then sees is returned. *)
Definition capability_failure (o : respond_outcome) : option exn :=
  match o with
  | RespondRaises e => Some e
  | Responded (PText _) => Some (AttributeError "line")
  | Responded (PDict _) | Responded (PObj _) => None
  end.

(** The value read for a field of a well-formed answer, in either
    representation. *)
Definition raw_line (p : parsed) : pyval :=
  match p with
  | PDict d => dict_get d "line"
  | PObj o => attr_value (line o)
  | PText _ => VNone
  end.

Definition raw_location (p : parsed) : pyval :=
  match p with
  | PDict d => dict_get d "location"
  | PObj o => attr_value (location o)
  | PText _ => VNone
  end.

Definition raw_noise_type (p : parsed) : pyval :=
  match p with
  | PDict d => dict_get d "noise_type"
  | PObj o => attr_value (noise_type o)
  | PText _ => VNone
  end.

Definition raw_vibration_type (p : parsed) : pyval :=
  match p with
  | PDict d => dict_get d "vibration_type"
  | PObj o => attr_value (vibration_type o)
  | PText _ => VNone
  end.

Definition well_formed (p : parsed) : bool :=
  match p with
  | PDict _ | PObj _ => true
  | PText _ => false
  end.

(** Number of times [value] occurs in a column. *)
Definition occurrences (value : pyval) (column : list pyval) : nat :=
  List.length (filter (pyval_eqb value) column).

(** The count a tally records for [value] (0 when it has no entry). *)
Fixpoint tally_count (t : list (pyval * nat)) (value : pyval) : nat :=
  match t with
  | [] => 0
  | (w, n) :: t' =>
    (if pyval_eqb w value then n else 0) + tally_count t' value
  end.

(** The events [_print_statistics] emits for one frequency table. *)
Definition distribution (W : Env) (header : message) (column : list pyval)
  : list event :=
  if 0 <? notna_sum column
  then EvPrint header
       :: map (fun item => EvPrint (MsgDistEntry (fst item) (snd item)))
              (head 10 (value_counts W column))
  else [].

(** [out] is the normalisation of the value [raw] read from an answer. *)
Definition normalized (raw out : pyval) : Prop :=
  (raw = VStr (lit "null") -> out = VNone)
  /\ (raw <> VStr (lit "null") -> out = raw).

(** *** Concrete collaborators and rows

    [world connect answer table] is an environment whose model service
    counts the calls it has served and answers the [n]-th one with
    [answer n], whose connection attempt ends as [connect], and whose
    input spreadsheet holds [table]; the library sort is the identity. *)
Definition world (connect : result nat) (answer : nat -> respond_outcome)
           (table : list Series) : Env :=
  {| ModelState := nat;
     respond := fun n _ => (answer n, S n);
     lms_llm := connect;
     read_excel := fun _ => Ok table;
     to_excel := fun _ _ => None;
     sort_values := fun t => t |}.

Definition stub_answer : parsed :=
  PDict [("line", VStr (lit "1号线"));
         ("location", VStr (lit "望京花园"));
         ("noise_type", VStr (lit "列车噪音"));
         ("vibration_type", VStr (lit "null"))]%string.

Definition always_answers (n : nat) : respond_outcome := Responded stub_answer.

Definition always_fails (n : nat) : respond_outcome :=
  RespondRaises (CapabilityError n).

Definition text_row : Series :=
  [(col_content, VStr (lit "1号线噪音很大，小区是望京花园"));
   (col_phone, VStr (lit "456"))].

Definition empty_row : Series :=
  [(col_content, VStr []); (col_phone, VStr (lit "123"))].

Definition missing_row : Series :=
  [(col_content, VNaN); (col_phone, VNum 13800000000)].

(** A row whose content cell holds a number instead of text. *)
Definition number_row : Series :=
  [(col_content, VNum 12345); (col_phone, VNum 13800000000)].

(** *** Vocabulary of the further properties *)

Definition is_respond (ev : event) : bool :=
  match ev with
  | EvRespond _ => true
  | _ => false
  end.

Definition is_write (ev : event) : bool :=
  match ev with
  | EvToExcel _ _ => true
  | _ => false
  end.

Definition is_print (ev : event) : bool :=
  match ev with
  | EvPrint _ => true
  | _ => false
  end.

(** The events the loop of [process_excel_file] can emit. *)
Definition is_loop_event (ev : event) : bool :=
  match ev with
  | EvRespond _ | EvPrint _ | EvSleep _ => true
  | EvConnect | EvReadExcel _ | EvToExcel _ _ => false
  end.

Definition is_call_or_write (ev : event) : bool :=
  is_respond ev || is_write ev.

(** The text a content cell sends to the model, if it sends any. *)
Definition needs_model (content : pyval) : option pystr :=
  match content with
  | VStr s => if truthy (strip s) then Some s else None
  | VNone | VNaN | VNum _ => None
  end.

(** The prompts of the rows of a table that send one, in table order. *)
Fixpoint prompts_of (rows : list Series) : list pystr :=
  match rows with
  | [] => []
  | row :: rows' =>
    match needs_model (content_of row) with
    | Some s => build_prompt s :: prompts_of rows'
    | None => prompts_of rows'
    end
  end.

(** A content cell that is missing or blank text. *)
Definition skipped (content : pyval) : bool :=
  match content with
  | VNone | VNaN => true
  | VStr s => forallb isspace s
  | VNum _ => false
  end.

(** Number of rows whose [field] is not missing. *)
Definition present_count (field : ResultRow -> pyval)
           (rows : list ResultRow) : nat :=
  List.length (filter (fun r => negb (pd_isna (field r))) rows).

(** What [_print_statistics] prints for a table with these rows. *)
Definition statistics_events (W : Env) (rows : list ResultRow) : list event :=
  [EvPrint MsgStatsHeader;
   EvPrint (MsgTotal (List.length rows));
   EvPrint (MsgLineCount (present_count row_line rows));
   EvPrint (MsgLocationCount (present_count row_location rows));
   EvPrint (MsgNoiseCount (present_count row_noise_type rows));
   EvPrint (MsgVibrationCount (present_count row_vibration_type rows))]
  ++ distribution W MsgLineDistHeader (map row_line rows)
  ++ distribution W MsgNoiseDistHeader (map row_noise_type rows).

(** None of the four extracted fields is the string ['null']. *)
Definition no_null_string (r : ResultRow) : Prop :=
  row_line r <> VStr (lit "null")
  /\ row_location r <> VStr (lit "null")
  /\ row_noise_type r <> VStr (lit "null")
  /\ row_vibration_type r <> VStr (lit "null").

(** What [main] does up to and including the read of the table. *)
Definition startup_events (n : nat) : list event :=
  [EvPrint (MsgConnecting default_model_name); EvConnect;
   EvPrint MsgConnected;
   EvPrint (MsgReading input_file); EvReadExcel input_file;
   EvPrint (MsgRecordCount n)].

(** An environment whose spreadsheet cannot be read. *)
Definition unreadable_world (e : exn) : Env :=
  {| ModelState := nat;
     respond := fun n _ => (always_answers n, S n);
     lms_llm := Ok 0;
     read_excel := fun _ => Raise e;
     to_excel := fun _ _ => None;
     sort_values := fun t => t |}.

(** An environment whose result spreadsheet cannot be written. *)
Definition unwritable_world (e : exn) (table : list Series) : Env :=
  {| ModelState := nat;
     respond := fun n _ => (always_answers n, S n);
     lms_llm := Ok 0;
     read_excel := fun _ => Ok table;
     to_excel := fun _ _ => Some e;
     sort_values := fun t => t |}.

(** The state of the model service after it has answered [prompts], one
    after the other, from state [m]. *)
Definition state_after (W : Env) (prompts : list pystr) (m : ModelState W)
  : ModelState W :=
  fold_left (fun st prompt => snd (respond W st prompt)) prompts m.

(** A row of a table that has no content column. *)
Definition phone_only_row : Series := [(col_phone, VStr (lit "789"))].

(** A mapping-style answer that names the line only. *)
Definition partial_answer : parsed :=
  PDict [("line", VStr (lit "13号线"))]%string.

(* ================================================================== *)
(** ** Strings *)
(* ================================================================== *)

Lemma pystr_eqb_spec (a b : pystr) : reflect (a = b) (PyStr.eqb a b).
Proof.
  revert b; induction a as [|x a IH]; intros [|y b]; simpl;
    try (constructor; congruence).
  destruct (N.eqb_spec x y) as [->|Hxy]; simpl.
  - destruct (IH b) as [->|Hab]; constructor; congruence.
  - constructor; congruence.
Qed.

Lemma pystr_eqb_refl (a : pystr) : PyStr.eqb a a = true.
Proof. destruct (pystr_eqb_spec a a); congruence. Qed.

Lemma lstrip_all_space (s : pystr) :
  forallb isspace s = true -> lstrip s = [].
Proof.
  induction s as [|c s IH]; simpl; [reflexivity|].
  intros H; apply andb_true_iff in H as [Hc Hs].
  rewrite Hc; auto.
Qed.

Lemma strip_all_space (s : pystr) :
  forallb isspace s = true -> strip s = [].
Proof.
  intros H; unfold strip, rstrip.
  rewrite (lstrip_all_space s H); reflexivity.
Qed.

Lemma lstrip_nil_inv (s : pystr) :
  lstrip s = [] -> forallb isspace s = true.
Proof.
  induction s as [|c s IH]; simpl; [reflexivity|].
  destruct (isspace c); simpl; [exact IH | discriminate].
Qed.

Lemma lstrip_head (s : pystr) c t :
  lstrip s = c :: t -> isspace c = false.
Proof.
  induction s as [|d s IH]; simpl; [discriminate|].
  destruct (isspace d) eqn:Hd; [exact IH|].
  intros E; injection E as <- _; exact Hd.
Qed.

(** [strip] returns the empty string exactly on the blank strings. *)
Lemma strip_nil_iff (s : pystr) :
  strip s = [] <-> forallb isspace s = true.
Proof.
  split; [|apply strip_all_space].
  unfold strip, rstrip; intros H.
  destruct (lstrip s) as [|c t] eqn:E; [now apply lstrip_nil_inv|].
  exfalso.
  apply (f_equal (@rev N)) in H; rewrite rev_involutive in H; simpl in H.
  assert (Hall : forallb isspace (rev (c :: t)) = true)
    by now apply lstrip_nil_inv.
  rewrite forallb_forall in Hall.
  specialize (Hall c); rewrite <- in_rev in Hall.
  rewrite (lstrip_head s c t E) in Hall.
  specialize (Hall (or_introl eq_refl)); discriminate.
Qed.

Lemma pyval_eqb_spec (a b : pyval) :
  pyval_eqb a b = true <-> a = b /\ a <> VNaN.
Proof.
  destruct a, b; simpl; split; try intros [? ?]; try intros ?;
    try discriminate; try congruence; try (split; congruence).
  - destruct (pystr_eqb_spec s s0); [split; congruence | discriminate].
  - injection H as ->; apply pystr_eqb_refl.
  - apply Z.eqb_eq in H; split; congruence.
  - injection H as ->; apply Z.eqb_refl.
Qed.

(* ================================================================== *)
(** ** [convert_null] and [extract_info_from_content] *)
(* ================================================================== *)

Lemma convert_null_null : convert_null (VStr (lit "null")) = VNone.
Proof. reflexivity. Qed.

Lemma convert_null_other (v : pyval) :
  v <> VStr (lit "null") -> convert_null v = v.
Proof.
  intros Hv; unfold convert_null.
  destruct (pyval_eqb v (VStr (lit "null"))) eqn:E; [|reflexivity].
  apply pyval_eqb_spec in E as [E _]; contradiction.
Qed.

Section ExtractFacts.

Variable W : Env.
Implicit Types (m : ModelState W) (s : pystr) (content : pyval).

Lemma extract_missing content m :
  pd_isna content = true ->
  extract_info_from_content W content m = (Ok all_absent, m, []).
Proof.
  intros H; unfold extract_info_from_content; rewrite H; reflexivity.
Qed.

Lemma extract_blank s m :
  forallb isspace s = true ->
  extract_info_from_content W (VStr s) m = (Ok all_absent, m, []).
Proof.
  intros H; unfold extract_info_from_content; simpl.
  rewrite (strip_all_space s H); reflexivity.
Qed.

Lemma extract_number z m :
  extract_info_from_content W (VNum z) m
  = (Raise (AttributeError "strip"), m, []).
Proof. reflexivity. Qed.

(** On text that is not blank the model is called once, and the
    outcome of the call decides the result. *)
Lemma extract_text s m :
  truthy (strip s) = true ->
  extract_info_from_content W (VStr s) m =
  match respond W m (build_prompt s) with
  | (Responded p, m') =>
    if well_formed p
    then (Ok {| xinfo_line := convert_null (raw_line p);
                xinfo_location := convert_null (raw_location p);
                xinfo_noise_type := convert_null (raw_noise_type p);
                xinfo_vibration_type :=
                  convert_null (raw_vibration_type p) |},
          m', [EvRespond (build_prompt s)])
    else (Ok all_absent, m',
          [EvRespond (build_prompt s);
           EvPrint (MsgModelCallFailed (AttributeError "line"))])
  | (RespondRaises e, m') =>
    (Ok all_absent, m',
     [EvRespond (build_prompt s); EvPrint (MsgModelCallFailed e)])
  end.
Proof.
  intros H; unfold extract_info_from_content; simpl; rewrite H; simpl.
  unfold try_except, bind, model_respond.
  destruct (respond W m (build_prompt s)) as [[p|e] m'];
    [destruct p|]; reflexivity.
Qed.

(** Text or missing content never makes the extraction raise, and the
    extraction emits no pacing event. *)
Lemma extract_total content m :
  text_or_missing content ->
  exists info m' out,
    extract_info_from_content W content m = (Ok info, m', out)
    /\ filter is_pacing out = [].
Proof.
  destruct content as [| |s|z]; simpl; intros Hc; try contradiction.
  - exists all_absent, m, []; split; reflexivity.
  - exists all_absent, m, []; split; reflexivity.
  - destruct (truthy (strip s)) eqn:Ht.
    + rewrite (extract_text s m Ht).
      destruct (respond W m (build_prompt s)) as [[p|e] m'].
      * destruct (well_formed p); eexists _, _, _; split; reflexivity.
      * eexists _, _, _; split; reflexivity.
    + exists all_absent, m, []; split; [|reflexivity].
      unfold extract_info_from_content; simpl; rewrite Ht; reflexivity.
Qed.

Lemma extract_no_pacing content m r m' out :
  extract_info_from_content W content m = (r, m', out) ->
  filter is_pacing out = [].
Proof.
  destruct content as [| |s|z]; simpl.
  - intros E; injection E as _ _ <-; reflexivity.
  - intros E; injection E as _ _ <-; reflexivity.
  - destruct (truthy (strip s)) eqn:Ht.
    + rewrite (extract_text s m Ht).
      destruct (respond W m (build_prompt s)) as [[p|e] m1];
        [destruct (well_formed p)|];
        intros E; injection E as _ _ <-; reflexivity.
    + unfold extract_info_from_content; simpl; rewrite Ht; simpl.
      intros E; injection E as _ _ <-; reflexivity.
  - rewrite extract_number; intros E; injection E as _ _ <-; reflexivity.
Qed.

End ExtractFacts.

(* ================================================================== *)
(** ** The loop of [process_excel_file] *)
(* ================================================================== *)




Lemma filter_pacing_pacing (idx : nat) :
  filter is_pacing (pacing idx) = pacing idx.
Proof. unfold pacing; destruct (_ =? _); reflexivity. Qed.

#[local] Arguments Nat.modulo : simpl never.
#[local] Arguments Nat.div : simpl never.

Section LoopFacts.

Variable W : Env.
Implicit Types (m : ModelState W) (row : Series) (rows : list Series).
Implicit Types (acc out : list ResultRow).

(** One iteration: extraction, the new row, the pause if due, then
    the rest of the table. *)
Lemma process_rows_step idx row rows acc m :
  process_rows W idx (row :: rows) acc m =
  match extract_info_from_content W (content_of row) m with
  | (Ok info, m1, out1) =>
    match process_rows W (S idx) rows (acc ++ [result_row_of row info]) m1 with
    | (r, m2, out2) => (r, m2, out1 ++ pacing idx ++ out2)
    end
  | (Raise e, m1, out1) => (Raise e, m1, out1)
  end.
Proof.
  simpl; unfold bind at 1.
  fold (content_of row); fold (phone_of row).
  destruct (extract_info_from_content W (content_of row) m)
    as [[[info|e] m1] out1]; [|reflexivity].
  fold (result_row_of row info).
  unfold pacing, bind, emit, print, ret.
  destruct ((idx + 1) mod 10 =? 0); simpl;
    destruct (process_rows W (S idx) rows (acc ++ [result_row_of row info]) m1)
      as [[r m2] out2]; reflexivity.
Qed.

(** A number in the content cell ends the loop at that row: the
    exception of [content.strip()] is raised outside the [try] block. *)
Lemma process_rows_number_cell idx row rows acc m z :
  content_of row = VNum z ->
  process_rows W idx (row :: rows) acc m
  = (Raise (AttributeError "strip"), m, []).
Proof. intros Hc; rewrite process_rows_step, Hc; reflexivity. Qed.

(** The rows already collected only prefix the result. *)
Lemma process_rows_acc rows : forall idx acc m,
  process_rows W idx rows acc m =
  match process_rows W idx rows [] m with
  | (Ok out, m', evs) => (Ok (acc ++ out), m', evs)
  | (Raise e, m', evs) => (Raise e, m', evs)
  end.
Proof.
  induction rows as [|row rows IH]; intros idx acc m.
  - simpl; unfold ret; now rewrite app_nil_r.
  - rewrite !process_rows_step.
    destruct (extract_info_from_content W (content_of row) m)
      as [[[info|e] m1] out1]; [|reflexivity].
    rewrite (IH (S idx) (acc ++ [result_row_of row info]) m1).
    rewrite (IH (S idx) ([] ++ [result_row_of row info]) m1).
    destruct (process_rows W (S idx) rows [] m1) as [[[out|e] m2] out2];
      [|reflexivity].
    simpl; now rewrite <- app_assoc.
Qed.

(** Processing a table is processing a prefix and then the rest. *)
Lemma process_rows_app pre : forall post idx acc m,
  process_rows W idx (pre ++ post) acc m =
  match process_rows W idx pre acc m with
  | (Ok acc1, m1, out1) =>
    match process_rows W (idx + List.length pre) post acc1 m1 with
    | (r, m2, out2) => (r, m2, out1 ++ out2)
    end
  | (Raise e, m1, out1) => (Raise e, m1, out1)
  end.
Proof.
  induction pre as [|row pre IH]; intros post idx acc m.
  - simpl; unfold ret; rewrite Nat.add_0_r.
    destruct (process_rows W idx post acc m) as [[r m2] out2]; reflexivity.
  - rewrite <- app_comm_cons, !process_rows_step.
    destruct (extract_info_from_content W (content_of row) m)
      as [[[info|e] m1] out1]; [|reflexivity].
    rewrite IH.
    destruct (process_rows W (S idx) pre (acc ++ [result_row_of row info]) m1)
      as [[[acc1|e] m2] out2]; [|reflexivity].
    simpl List.length; rewrite Nat.add_succ_r; simpl.
    destruct (process_rows W (S (idx + List.length pre)) post acc1 m2)
      as [[r m3] out3].
    now rewrite <- !app_assoc.
Qed.

(** What a completed run of the loop has produced and done. *)
Lemma process_rows_ok rows : forall idx acc m out m' evs,
  process_rows W idx rows acc m = (Ok out, m', evs) ->
  exists new,
    out = acc ++ new
    /\ Forall2 (fun row r => exists info, r = result_row_of row info) rows new
    /\ filter is_pacing evs = flat_map pacing (seq idx (List.length rows)).
Proof.
  induction rows as [|row rows IH]; intros idx acc m out m' evs.
  - simpl; unfold ret; intros E; injection E as <- _ <-.
    exists []; rewrite app_nil_r; repeat split; constructor.
  - rewrite process_rows_step.
    destruct (extract_info_from_content W (content_of row) m)
      as [[[info|e] m1] out1] eqn:Ex; [|discriminate].
    destruct (process_rows W (S idx) rows (acc ++ [result_row_of row info]) m1)
      as [[r m2] out2] eqn:Er.
    intros E; injection E as -> <- <-.
    destruct (IH _ _ _ _ _ _ Er) as (new & -> & Hall & Hp).
    exists (result_row_of row info :: new); repeat split.
    + now rewrite <- app_assoc.
    + constructor; [now exists info | exact Hall].
    + rewrite !filter_app, (extract_no_pacing W _ _ _ _ _ Ex), Hp.
      rewrite filter_pacing_pacing; reflexivity.
Qed.

(** On a table whose content cells are text or missing the loop runs
    to its end. *)
Lemma process_rows_total rows : forall idx acc m,
  Forall (fun row => text_or_missing (content_of row)) rows ->
  exists out m' evs, process_rows W idx rows acc m = (Ok out, m', evs).
Proof.
  induction rows as [|row rows IH]; intros idx acc m Hall.
  - exists acc, m, []; reflexivity.
  - inversion Hall as [|? ? Hrow Hrest]; subst.
    rewrite process_rows_step.
    destruct (extract_total W _ m Hrow) as (info & m1 & out1 & -> & _).
    destruct (IH (S idx) (acc ++ [result_row_of row info]) m1 Hrest)
      as (out & m2 & out2 & ->).
    eexists _, _, _; reflexivity.
Qed.

(** A run of [process_excel_file] whose loop completes: the table
    handed to the writer is the one built from the rows of the loop. *)
Lemma process_excel_file_run input output rows m out m1 evs :
  read_excel W input = Ok rows ->
  process_rows W 0 rows [] m = (Ok out, m1, evs) ->
  process_excel_file W input output m =
  let df := DataFrame_of_records out in
  let before :=
    [EvPrint (MsgReading input); EvReadExcel input;
     EvPrint (MsgRecordCount (List.length rows))]
    ++ evs ++ [EvPrint (MsgSaving output); EvToExcel output df] in
  match to_excel W output df with
  | Some e => (Raise e, m1, before)
  | None =>
    match _print_statistics W df m1 with
    | (r, m2, evs2) =>
      (r, m2, before ++ [EvPrint MsgDone; EvPrint (MsgSaved output)] ++ evs2)
    end
  end.
Proof.
  intros Hread Hloop.
  unfold process_excel_file, bind, print, emit, lift.
  rewrite Hread, Hloop; cbv zeta.
  destruct (to_excel W output (DataFrame_of_records out)) as [e|].
  - unfold raise; simpl; now rewrite <- ?app_assoc, ?app_nil_r.
  - destruct (_print_statistics W (DataFrame_of_records out) m1)
      as [[r m2] evs2].
    simpl; now rewrite <- ?app_assoc.
Qed.

End LoopFacts.

(* ================================================================== *)
(** ** The reporter *)
(* ================================================================== *)

Lemma pyval_eqb_sym (a b : pyval) : pyval_eqb a b = pyval_eqb b a.
Proof.
  destruct (pyval_eqb a b) eqn:E1, (pyval_eqb b a) eqn:E2; try reflexivity.
  - apply pyval_eqb_spec in E1 as [-> Hn].
    assert (pyval_eqb b b = true) by (apply pyval_eqb_spec; auto).
    congruence.
  - apply pyval_eqb_spec in E2 as [-> Hn].
    assert (pyval_eqb a a = true) by (apply pyval_eqb_spec; auto).
    congruence.
Qed.

Lemma tally_count_add (w v : pyval) (t : list (pyval * nat)) :
  pd_isna w = false ->
  tally_count (tally_add w t) v
  = tally_count t v + (if pyval_eqb w v then 1 else 0).
Proof.
  intros Hw; induction t as [|[k n] t IH]; simpl.
  - destruct (pyval_eqb w v); reflexivity.
  - destruct (pyval_eqb k w) eqn:Ek; simpl.
    + apply pyval_eqb_spec in Ek as [-> _].
      destruct (pyval_eqb w v); lia.
    + rewrite IH; lia.
Qed.

Lemma tally_count_fold (v : pyval) (column : list pyval) :
  pd_isna v = false ->
  forall t,
    tally_count
      (fold_left (fun t v => if pd_isna v then t else tally_add v t) column t) v
    = tally_count t v + occurrences v column.
Proof.
  unfold occurrences; intros Hv.
  induction column as [|w column IH]; intros t; simpl; [lia|].
  rewrite IH.
  destruct (pd_isna w) eqn:Hw.
  - assert (pyval_eqb v w = false) as ->
        by (destruct w, v; simpl in *; congruence).
    reflexivity.
  - rewrite (tally_count_add w v t Hw), (pyval_eqb_sym v w).
    destruct (pyval_eqb w v); simpl; lia.
Qed.

(** [value_counts] tallies every value with the number of times it
    occurs in the column. *)
Lemma tally_count_exact (v : pyval) (column : list pyval) :
  pd_isna v = false ->
  tally_count (tally column) v = occurrences v column.
Proof. intros Hv; unfold tally; now rewrite tally_count_fold. Qed.

Lemma tally_add_keys (w : pyval) (t : list (pyval * nat)) :
  pd_isna w = false ->
  map fst (tally_add w t)
  = if existsb (fun k => pyval_eqb k w) (map fst t)
    then map fst t else map fst t ++ [w].
Proof.
  intros Hw; induction t as [|[k n] t IH]; simpl; [reflexivity|].
  destruct (pyval_eqb k w) eqn:Ek; simpl; [reflexivity|].
  rewrite IH; destruct (existsb _ _); reflexivity.
Qed.

(** The tally has one entry per distinct value. *)
Lemma tally_keys_NoDup (column : list pyval) : NoDup (map fst (tally column)).
Proof.
  unfold tally.
  assert (H : forall t, (forall k, In k (map fst t) -> pd_isna k = false) ->
                        NoDup (map fst t) ->
            NoDup (map fst (fold_left
              (fun t v => if pd_isna v then t else tally_add v t) column t))).
  { induction column as [|w column IH]; intros t Hna Hnd; simpl; [exact Hnd|].
    destruct (pd_isna w) eqn:Hw; [now apply IH|].
    apply IH.
    - intros k; rewrite (tally_add_keys w t Hw).
      destruct (existsb _ _); [apply Hna|].
      rewrite in_app_iff; intros [Hk|[<-|[]]]; auto.
    - rewrite (tally_add_keys w t Hw).
      destruct (existsb (fun k => pyval_eqb k w) (map fst t)) eqn:Ex;
        [exact Hnd|].
      apply NoDup_app; [exact Hnd | repeat constructor; intros [] |].
      intros k Hk [E|[]]; subst k.
      assert (Hex : existsb (fun k => pyval_eqb k w) (map fst t) = true).
      { apply existsb_exists; exists w; split; [exact Hk|].
        apply pyval_eqb_spec; split; [reflexivity|].
        intros ->; discriminate Hw. }
      congruence. }
  apply H; [intros k [] | constructor].
Qed.

Lemma result_columns_getitem (r : ResultRow) (results : list ResultRow) :
  let df := DataFrame_of_records (r :: results) in
  df_getitem df col_line = Ok (map row_line (r :: results))
  /\ df_getitem df col_location = Ok (map row_location (r :: results))
  /\ df_getitem df col_noise_type = Ok (map row_noise_type (r :: results))
  /\ df_getitem df col_vibration_type
     = Ok (map row_vibration_type (r :: results)).
Proof. repeat split. Qed.

Section ReporterFacts.

Variable W : Env.

Lemma print_items_run (items : list (pyval * nat)) (m : ModelState W) :
  print_items W items m
  = (Ok tt, m,
     map (fun item => EvPrint (MsgDistEntry (fst item) (snd item))) items).
Proof.
  induction items as [|[v n] items IH]; simpl; [reflexivity|].
  unfold bind, print, emit; rewrite IH; reflexivity.
Qed.

(** On a table with at least one row the reporter prints the total,
    the four counts of non-missing values, and the two frequency tables
    cut to ten entries. *)
Lemma print_statistics_nonempty (r : ResultRow) (results : list ResultRow)
      (m : ModelState W) :
  let rows := r :: results in
  _print_statistics W (DataFrame_of_records rows) m
  = (Ok tt, m,
     [EvPrint MsgStatsHeader;
      EvPrint (MsgTotal (List.length rows));
      EvPrint (MsgLineCount (notna_sum (map row_line rows)));
      EvPrint (MsgLocationCount (notna_sum (map row_location rows)));
      EvPrint (MsgNoiseCount (notna_sum (map row_noise_type rows)));
      EvPrint (MsgVibrationCount (notna_sum (map row_vibration_type rows)))]
     ++ distribution W MsgLineDistHeader (map row_line rows)
     ++ distribution W MsgNoiseDistHeader (map row_noise_type rows)).
Proof.
  intros rows; unfold _print_statistics.
  destruct (result_columns_getitem r results) as (E1 & E2 & E3 & E4).
  fold rows in E1, E2, E3, E4.
  unfold bind at 1; simpl (print _ _).
  unfold bind at 1; simpl (print _ _).
  rewrite !E1, !E2, !E3, !E4.
  unfold distribution, bind, lift, print, emit, ret.
  destruct (0 <? notna_sum (map row_line rows));
    destruct (0 <? notna_sum (map row_noise_type rows));
    rewrite ?print_items_run; simpl; rewrite ?app_nil_r; reflexivity.
Qed.

End ReporterFacts.

(* ================================================================== *)
(** ** Properties of the specification *)
(* ================================================================== *)

Lemma Forall2_nth_error {A B : Type} (R : A -> B -> Prop) (l : list A)
      (l' : list B) :
  Forall2 R l l' ->
  forall n a, nth_error l n = Some a ->
  exists b, nth_error l' n = Some b /\ R a b.
Proof.
  induction 1 as [|x y l l' Hxy _ IH]; intros [|n] a; simpl; try discriminate.
  - intros E; injection E as <-; eauto.
  - apply IH.
Qed.

(** The row-count invariant does not hold of every table: a table whose
    single content cell holds a number makes the loop raise, so no output
    row is produced for it. *)
Lemma one_row_per_record_counterexample :
  ~ (forall (W : Env) (rows : list Series) (m : ModelState W),
        exists out m' evs,
          process_rows W 0 rows [] m = (Ok out, m', evs)
          /\ List.length out = List.length rows).
Proof.
  intros H.
  destruct (H (world (Ok 0) always_answers []) [number_row] 0)
    as (out & m' & evs & E & _).
  vm_compute in E; discriminate E.
Qed.

(** On every input table whose content cells are text or missing, and
    whatever the model does, the loop of the batch runner ends with
    exactly one output row per input row, in input order: output row [n]
    is input row [n] extended with extracted fields; and the table
    [process_excel_file] hands to the writer holds these rows. *)
Theorem one_row_per_record (W : Env) (rows : list Series) (m : ModelState W) :
  Forall (fun row => text_or_missing (content_of row)) rows ->
  exists out m' evs,
    process_rows W 0 rows [] m = (Ok out, m', evs)
    /\ List.length out = List.length rows
    /\ (forall n row, nth_error rows n = Some row ->
          exists info, nth_error out n = Some (result_row_of row info))
    /\ (forall input output, read_excel W input = Ok rows ->
          exists r m2 before after,
            process_excel_file W input output m
            = (r, m2,
               before ++ EvToExcel output (DataFrame_of_records out) :: after)).
Proof.
  intros Hall.
  destruct (process_rows_total W rows 0 [] m Hall) as (out & m' & evs & E).
  destruct (process_rows_ok W rows 0 [] m _ _ _ E) as (new & -> & HF & _).
  exists new, m', evs; simpl in E; repeat split; [exact E| | |].
  - symmetry; exact (Forall2_length HF).
  - intros n row Hn.
    destruct (Forall2_nth_error _ _ _ HF n row Hn) as (r & Hr & info & ->).
    now exists info.
  - intros input output Hread.
    rewrite (process_excel_file_run W input output rows m new m' evs Hread E).
    cbv zeta.
    destruct (to_excel W output (DataFrame_of_records new)) as [e|].
    + exists (Raise e), m',
        ([EvPrint (MsgReading input); EvReadExcel input;
          EvPrint (MsgRecordCount (List.length rows))]
         ++ evs ++ [EvPrint (MsgSaving output)]), [].
      now rewrite <- !app_assoc.
    + destruct (_print_statistics W (DataFrame_of_records new) m')
        as [[r m2] evs2].
      exists r, m2,
        ([EvPrint (MsgReading input); EvReadExcel input;
          EvPrint (MsgRecordCount (List.length rows))]
         ++ evs ++ [EvPrint (MsgSaving output)]),
        ([EvPrint MsgDone; EvPrint (MsgSaved output)] ++ evs2).
      now rewrite <- !app_assoc.
Qed.

Lemma one_row_per_record_witness :
  let W := world (Ok 0) always_fails [text_row; empty_row; missing_row] in
  let rows := [text_row; empty_row; missing_row] in
  exists out m' evs,
    process_rows W 0 rows [] 0 = (Ok out, m', evs)
    /\ List.length out = 3
    /\ (forall n row, nth_error rows n = Some row ->
          exists info, nth_error out n = Some (result_row_of row info))
    /\ (forall input output, read_excel W input = Ok rows ->
          exists r m2 before after,
            process_excel_file W input output 0
            = (r, m2,
               before ++ EvToExcel output (DataFrame_of_records out) :: after)).
Proof.
  intros W rows.
  apply (one_row_per_record W rows 0).
  repeat constructor.
Defined.

(** C1 fails on the code: in a table of three rows whose second content
    cell holds a number, the first row is extracted, then
    [content.strip()] raises outside the [try] block and leaves the loop;
    no output row is produced, neither for the row already extracted nor
    for the third one, and [main] ends with the exception without handing
    any table to the writer. *)
Theorem number_cell_yields_no_output_row :
  let W := world (Ok 0) always_answers [text_row; number_row; text_row] in
  let prompt := build_prompt (lit "1号线噪音很大，小区是望京花园") in
  process_rows W 0 [text_row; number_row; text_row] [] 0
  = (Raise (AttributeError "strip"), 1, [EvRespond prompt])
  /\ main W
     = (Raise (AttributeError "strip"),
        startup_events 3
        ++ [EvRespond prompt;
            EvPrint (MsgMainError (AttributeError "strip"))]).
Proof. split; vm_compute; reflexivity. Qed.

(** C2: on content that is missing ([None] or [nan]) or the empty
    string, [extract_info_from_content] returns the four fields absent;
    it emits no event and leaves the state of the model service as it
    was, so the model is not called. *)
Theorem extract_skips_empty_or_missing (W : Env) (content : pyval)
        (m : ModelState W) :
  pd_isna content = true \/ content = VStr [] ->
  extract_info_from_content W content m = (Ok all_absent, m, []).
Proof.
  intros [H | ->]; [now apply extract_missing | now apply extract_blank].
Qed.

Lemma extract_skips_empty_or_missing_witness :
  extract_info_from_content (world (Ok 0) always_answers []) VNaN 0
  = (Ok all_absent, 0, []).
Proof.
  apply (extract_skips_empty_or_missing (world (Ok 0) always_answers []) VNaN 0).
  left; reflexivity.
Defined.

(** C3: when the model call for a record raises, or its parsed answer
    is not a four-field structure, [extract_info_from_content] reports
    the error, returns the four fields absent and raises nothing; in the
    batch, the rows before that record are the ones the run had produced
    up to it, and the rows after it are the ones the rest of the table
    produces from the state the model service is then in. *)
Theorem model_failure_is_contained (W : Env) (s : pystr)
        (m1 m2 : ModelState W) (o : respond_outcome) (e : exn) :
  truthy (strip s) = true ->
  respond W m1 (build_prompt s) = (o, m2) ->
  capability_failure o = Some e ->
  extract_info_from_content W (VStr s) m1
  = (Ok all_absent, m2,
     [EvRespond (build_prompt s); EvPrint (MsgModelCallFailed e)])
  /\ forall idx pre row post m0 out1 ev1 out3 m3 ev3,
       content_of row = VStr s ->
       process_rows W idx pre [] m0 = (Ok out1, m1, ev1) ->
       process_rows W (S (idx + List.length pre)) post [] m2
       = (Ok out3, m3, ev3) ->
       process_rows W idx (pre ++ row :: post) [] m0
       = (Ok (out1 ++ result_row_of row all_absent :: out3), m3,
          ev1 ++ [EvRespond (build_prompt s); EvPrint (MsgModelCallFailed e)]
              ++ pacing (idx + List.length pre) ++ ev3).
Proof.
  intros Ht Hr Hf.
  assert (Hx : extract_info_from_content W (VStr s) m1
               = (Ok all_absent, m2,
                  [EvRespond (build_prompt s);
                   EvPrint (MsgModelCallFailed e)])).
  { rewrite (extract_text W s m1 Ht), Hr.
    destruct o as [[d|c|t]|e']; simpl in Hf; try discriminate;
      injection Hf as <-; reflexivity. }
  split; [exact Hx|].
  intros idx pre row post m0 out1 ev1 out3 m3 ev3 Hc Hpre Hpost.
  rewrite process_rows_app, Hpre, process_rows_step, Hc, Hx.
  rewrite process_rows_acc, Hpost.
  now rewrite <- !app_assoc.
Qed.

Lemma model_failure_is_contained_witness :
  let W := world (Ok 0) always_fails [] in
  let s := lit "1号线噪音很大，小区是望京花园" in
  let report :=
    [EvRespond (build_prompt s);
     EvPrint (MsgModelCallFailed (CapabilityError 0))] in
  extract_info_from_content W (VStr s) 0 = (Ok all_absent, 1, report)
  /\ process_rows W 0 ([empty_row] ++ text_row :: [missing_row]) [] 0
     = (Ok ([result_row_of empty_row all_absent]
            ++ result_row_of text_row all_absent
            :: [result_row_of missing_row all_absent]),
        1, [] ++ report ++ pacing (0 + 1) ++ []).
Proof.
  intros W s report.
  destruct (model_failure_is_contained W s 0 1 (always_fails 0)
              (CapabilityError 0) eq_refl eq_refl eq_refl) as [H1 H2].
  split; [exact H1|].
  apply (H2 0 [empty_row] text_row [missing_row] 0); reflexivity.
Defined.

(** C4: in a well-formed answer, mapping style or object style alike,
    each of the four fields is normalised on its own: a field read as
    the string ['null'] comes out as [None], and any other value, so any
    other string, comes out as it was read. *)
Theorem null_string_becomes_absent (W : Env) (s : pystr)
        (m m' : ModelState W) (p : parsed) :
  truthy (strip s) = true ->
  respond W m (build_prompt s) = (Responded p, m') ->
  well_formed p = true ->
  exists info,
    extract_info_from_content W (VStr s) m
    = (Ok info, m', [EvRespond (build_prompt s)])
    /\ normalized (raw_line p) (xinfo_line info)
    /\ normalized (raw_location p) (xinfo_location info)
    /\ normalized (raw_noise_type p) (xinfo_noise_type info)
    /\ normalized (raw_vibration_type p) (xinfo_vibration_type info)
    /\ convert_null (VStr (lit "null")) = VNone
    /\ forall t, t <> lit "null" -> convert_null (VStr t) = VStr t.
Proof.
  intros Ht Hr Hp.
  rewrite (extract_text W s m Ht), Hr, Hp.
  assert (Hn : forall raw, normalized raw (convert_null raw)).
  { intros raw; split; [intros ->; reflexivity | apply convert_null_other]. }
  eexists; split; [reflexivity|]; simpl.
  do 4 (split; [apply Hn|]).
  split; [reflexivity|].
  intros t Hneq; apply convert_null_other; congruence.
Qed.

Lemma null_string_becomes_absent_witness :
  exists info,
    extract_info_from_content (world (Ok 0) always_answers [])
                              (VStr (lit "1号线噪音很大，小区是望京花园")) 0
    = (Ok info, 1,
       [EvRespond (build_prompt (lit "1号线噪音很大，小区是望京花园"))])
    /\ normalized (raw_line stub_answer) (xinfo_line info)
    /\ normalized (raw_location stub_answer) (xinfo_location info)
    /\ normalized (raw_noise_type stub_answer) (xinfo_noise_type info)
    /\ normalized (raw_vibration_type stub_answer) (xinfo_vibration_type info)
    /\ convert_null (VStr (lit "null")) = VNone
    /\ forall t, t <> lit "null" -> convert_null (VStr t) = VStr t.
Proof.
  apply (null_string_becomes_absent (world (Ok 0) always_answers [])
           (lit "1号线噪音很大，小区是望京花园") 0 1 stub_answer);
    reflexivity.
Defined.

(** C5 fails on the code: with a number in the content cell of the
    first row, [content.strip()] raises before the [try] block, the
    exception leaves the loop and [main]; the second row is never sent to
    the model and nothing is written. *)
Theorem number_cell_aborts_the_batch :
  main (world (Ok 0) always_answers [number_row; text_row])
  = (Raise (AttributeError "strip"),
     [EvPrint (MsgConnecting default_model_name); EvConnect;
      EvPrint MsgConnected;
      EvPrint (MsgReading input_file); EvReadExcel input_file;
      EvPrint (MsgRecordCount 2);
      EvPrint (MsgMainError (AttributeError "strip"))]).
Proof. vm_compute; reflexivity. Qed.



(** C7 fails on the code for the empty result table: [pd.DataFrame([])]
    has no columns, so after the total the first column access raises
    [KeyError]; no per-field count and no frequency table is produced,
    and a run over an empty input table ends with that exception after
    the output has been written. *)
Theorem statistics_of_empty_table_raise :
  (forall (W : Env) (m : ModelState W),
      _print_statistics W (DataFrame_of_records []) m
      = (Raise (KeyError col_line), m,
         [EvPrint MsgStatsHeader; EvPrint (MsgTotal 0)]))
  /\ main (world (Ok 0) always_answers [])
     = (Raise (KeyError col_line),
        [EvPrint (MsgConnecting default_model_name); EvConnect;
         EvPrint MsgConnected;
         EvPrint (MsgReading input_file); EvReadExcel input_file;
         EvPrint (MsgRecordCount 0);
         EvPrint (MsgSaving output_file);
         EvToExcel output_file (DataFrame_of_records []);
         EvPrint MsgDone; EvPrint (MsgSaved output_file);
         EvPrint MsgStatsHeader; EvPrint (MsgTotal 0);
         EvPrint (MsgMainError (KeyError col_line))]).
Proof. split; [intros W m|]; vm_compute; reflexivity. Qed.

(** C8: when connecting to the model fails, [main] ends with that
    exception having only announced the connection, tried it and
    reported the failure: the table is not read, no record is extracted,
    nothing is written. *)
Theorem connection_failure_aborts_before_rows (W : Env) (e : exn) :
  lms_llm W = Raise e ->
  main W
  = (Raise e,
     [EvPrint (MsgConnecting default_model_name); EvConnect;
      EvPrint (MsgConnectFailed e); EvPrint (MsgMainError e)]).
Proof. intros H; unfold main, _initialize_model; rewrite H; reflexivity. Qed.

Lemma connection_failure_aborts_before_rows_witness :
  main (world (Raise (CapabilityError 7)) always_answers [text_row; empty_row])
  = (Raise (CapabilityError 7),
     [EvPrint (MsgConnecting default_model_name); EvConnect;
      EvPrint (MsgConnectFailed (CapabilityError 7));
      EvPrint (MsgMainError (CapabilityError 7))]).
Proof.
  apply (connection_failure_aborts_before_rows
           (world (Raise (CapabilityError 7)) always_answers
                  [text_row; empty_row])).
  reflexivity.
Defined.

(** C9: every row the loop produces carries the content and the phone
    of its input row as they were read, whatever the extraction gave
    (answer, failure or skip); the rows collected before are kept. *)
Theorem content_and_phone_carried_through (W : Env) (idx : nat)
        (rows : list Series) (acc out : list ResultRow)
        (m m' : ModelState W) (evs : list event) :
  process_rows W idx rows acc m = (Ok out, m', evs) ->
  exists new,
    out = acc ++ new
    /\ Forall2 (fun row r => row_content r = content_of row
                             /\ row_phone r = phone_of row) rows new.
Proof.
  intros E.
  destruct (process_rows_ok W rows idx acc m _ _ _ E) as (new & -> & HF & _).
  exists new; split; [reflexivity|].
  clear E; induction HF as [|row r rows new [info ->] _ IH];
    constructor; [split; reflexivity | exact IH].
Qed.

Lemma content_and_phone_carried_through_witness :
  exists new,
    [result_row_of text_row all_absent;
     result_row_of empty_row all_absent;
     result_row_of missing_row all_absent] = [] ++ new
    /\ Forall2 (fun row r => row_content r = content_of row
                             /\ row_phone r = phone_of row)
               [text_row; empty_row; missing_row] new.
Proof.
  apply (content_and_phone_carried_through (world (Ok 0) always_fails [])
           0 [text_row; empty_row; missing_row] [] _ 0 1
           [EvRespond (build_prompt (lit "1号线噪音很大，小区是望京花园"));
            EvPrint (MsgModelCallFailed (CapabilityError 0))]).
  vm_compute; reflexivity.
Defined.

(** C10: on text made only of whitespace characters the extraction is
    skipped as for the empty string: four fields absent, no event, the
    state of the model service untouched. *)
Theorem extract_skips_blank_text (W : Env) (s : pystr) (m : ModelState W) :
  s <> [] ->
  forallb isspace s = true ->
  extract_info_from_content W (VStr s) m = (Ok all_absent, m, []).
Proof. intros _ H; now apply extract_blank. Qed.

Lemma extract_skips_blank_text_witness :
  extract_info_from_content (world (Ok 0) always_answers [])
                            (VStr [32; 9; 12288; 10]%N) 0
  = (Ok all_absent, 0, []).
Proof.
  apply (extract_skips_blank_text (world (Ok 0) always_answers [])
           [32; 9; 12288; 10]%N 0); [discriminate | reflexivity].
Defined.

(* ================================================================== *)
(** ** Further properties of the extraction and of the loop *)
(* ================================================================== *)

Lemma convert_null_never_null (v : pyval) :
  convert_null v <> VStr (lit "null").
Proof.
  unfold convert_null.
  destruct (pyval_eqb v (VStr (lit "null"))) eqn:E; [discriminate|].
  intros ->; vm_compute in E; discriminate E.
Qed.

Lemma dict_get_missing (d : list (string * pyval)) (key : string) :
  ~ In key (map fst d) -> dict_get d key = VNone.
Proof.
  induction d as [|[k v] d IH]; simpl; [reflexivity|].
  intros Hn; destruct (String.eqb_spec k key) as [->|_]; [tauto|].
  apply IH; tauto.
Qed.

Lemma needs_model_skipped (content : pyval) :
  skipped content = true -> needs_model content = None.
Proof.
  destruct content as [| |s|z]; simpl; try reflexivity; try discriminate.
  intros H; now rewrite (strip_all_space s H).
Qed.

Lemma truthy_strip_iff (s : pystr) :
  truthy (strip s) = true <-> forallb isspace s = false.
Proof.
  pose proof (strip_nil_iff s) as [H1 H2].
  destruct (strip s) as [|c t] eqn:E; simpl; split; intros H;
    try discriminate; try reflexivity.
  - rewrite H1 in H by reflexivity; discriminate.
  - destruct (forallb isspace s); [now specialize (H2 eq_refl)|reflexivity].
Qed.

Lemma filter_respond_pacing (idx : nat) : filter is_respond (pacing idx) = [].
Proof. unfold pacing; destruct (_ =? _); reflexivity. Qed.

Lemma loop_event_pacing (idx : nat) :
  forallb is_loop_event (pacing idx) = true.
Proof. unfold pacing; destruct (_ =? _); reflexivity. Qed.

Lemma pacing_only_pacing (idx : nat) :
  filter (fun ev => negb (is_pacing ev)) (pacing idx) = [].
Proof. unfold pacing; destruct (_ =? _); reflexivity. Qed.

Section MoreExtractFacts.

Variable W : Env.
Implicit Types (m : ModelState W) (s : pystr) (content : pyval).

(** The outcome of one extraction, by the kind of content. *)
Lemma extract_cases content m :
  extract_info_from_content W content m =
  match content with
  | VNum _ => (Raise (AttributeError "strip"), m, [])
  | _ =>
    match needs_model content with
    | None => (Ok all_absent, m, [])
    | Some s =>
      match respond W m (build_prompt s) with
      | (Responded p, m') =>
        if well_formed p
        then (Ok {| xinfo_line := convert_null (raw_line p);
                    xinfo_location := convert_null (raw_location p);
                    xinfo_noise_type := convert_null (raw_noise_type p);
                    xinfo_vibration_type :=
                      convert_null (raw_vibration_type p) |},
              m', [EvRespond (build_prompt s)])
        else (Ok all_absent, m',
              [EvRespond (build_prompt s);
               EvPrint (MsgModelCallFailed (AttributeError "line"))])
      | (RespondRaises e, m') =>
        (Ok all_absent, m',
         [EvRespond (build_prompt s); EvPrint (MsgModelCallFailed e)])
      end
    end
  end.
Proof.
  destruct content as [| |s|z]; try reflexivity.
  unfold needs_model; destruct (truthy (strip s)) eqn:Ht.
  - apply (extract_text W s m Ht).
  - unfold extract_info_from_content; simpl; rewrite Ht; reflexivity.
Qed.

Lemma extract_responds content m r m' out :
  extract_info_from_content W content m = (r, m', out) ->
  filter is_respond out
  = match needs_model content with
    | Some s => [EvRespond (build_prompt s)]
    | None => []
    end.
Proof.
  rewrite extract_cases.
  destruct content as [| |s|z]; simpl needs_model;
    try (intros E; injection E as _ _ <-; reflexivity).
  destruct (truthy (strip s));
    [|intros E; injection E as _ _ <-; reflexivity].
  destruct (respond W m (build_prompt s)) as [[p|e] m1];
    [destruct (well_formed p)|];
    intros E; injection E as _ _ <-; reflexivity.
Qed.

Lemma extract_events content m r m' out :
  extract_info_from_content W content m = (r, m', out) ->
  forallb is_loop_event out = true
  /\ filter (fun ev => negb (is_pacing ev)) out = out.
Proof.
  rewrite extract_cases.
  destruct content as [| |s|z]; simpl needs_model;
    try (intros E; injection E as _ _ <-; split; reflexivity).
  destruct (truthy (strip s));
    [|intros E; injection E as _ _ <-; split; reflexivity].
  destruct (respond W m (build_prompt s)) as [[p|e] m1];
    [destruct (well_formed p)|];
    intros E; injection E as _ _ <-; split; reflexivity.
Qed.

Lemma extract_never_null content m info m' out :
  extract_info_from_content W content m = (Ok info, m', out) ->
  xinfo_line info <> VStr (lit "null")
  /\ xinfo_location info <> VStr (lit "null")
  /\ xinfo_noise_type info <> VStr (lit "null")
  /\ xinfo_vibration_type info <> VStr (lit "null").
Proof.
  assert (Ha : forall i, i = all_absent ->
             xinfo_line i <> VStr (lit "null")
             /\ xinfo_location i <> VStr (lit "null")
             /\ xinfo_noise_type i <> VStr (lit "null")
             /\ xinfo_vibration_type i <> VStr (lit "null"))
    by (intros i ->; repeat split; discriminate).
  rewrite extract_cases.
  destruct content as [| |s|z]; simpl needs_model;
    try (intros E; injection E as <- _ _; now apply Ha);
    try discriminate.
  destruct (truthy (strip s));
    [|intros E; injection E as <- _ _; now apply Ha].
  destruct (respond W m (build_prompt s)) as [[p|e] m1];
    [destruct (well_formed p)|];
    intros E; injection E as <- _ _; try now apply Ha.
  simpl; repeat split; apply convert_null_never_null.
Qed.

Lemma extract_skipped content m :
  skipped content = true ->
  extract_info_from_content W content m = (Ok all_absent, m, []).
Proof.
  intros H; rewrite extract_cases, (needs_model_skipped content H).
  destruct content; try reflexivity; discriminate.
Qed.

End MoreExtractFacts.

Section MoreLoopFacts.

Variable W : Env.
Implicit Types (m : ModelState W) (row : Series) (rows : list Series).
Implicit Types (acc out : list ResultRow).

(** Every row of a completed run comes from one extraction. *)
Lemma process_rows_extracted rows : forall idx acc m out m' evs,
  process_rows W idx rows acc m = (Ok out, m', evs) ->
  exists new,
    out = acc ++ new
    /\ Forall2
         (fun row r =>
            exists info m0 m1 ev,
              extract_info_from_content W (content_of row) m0
              = (Ok info, m1, ev)
              /\ r = result_row_of row info) rows new
    /\ filter is_respond evs
       = map (fun prompt => EvRespond prompt) (prompts_of rows).
Proof.
  induction rows as [|row rows IH]; intros idx acc m out m' evs.
  - simpl; unfold ret; intros E; injection E as <- _ <-.
    exists []; rewrite app_nil_r; repeat split; constructor.
  - rewrite process_rows_step.
    destruct (extract_info_from_content W (content_of row) m)
      as [[[info|e] m1] out1] eqn:Ex; [|discriminate].
    destruct (process_rows W (S idx) rows (acc ++ [result_row_of row info]) m1)
      as [[r m2] out2] eqn:Er.
    intros E; injection E as -> <- <-.
    destruct (IH _ _ _ _ _ _ Er) as (new & -> & Hall & Hp).
    exists (result_row_of row info :: new); repeat split.
    + now rewrite <- app_assoc.
    + constructor; [now exists info, m, m1, out1 | exact Hall].
    + rewrite !filter_app, (extract_responds W _ _ _ _ _ Ex), Hp.
      rewrite filter_respond_pacing; simpl.
      destruct (needs_model (content_of row)); reflexivity.
Qed.

(** Whatever its outcome, the loop only calls the model, prints and
    sleeps. *)
Lemma process_rows_events rows : forall idx acc m r m' evs,
  process_rows W idx rows acc m = (r, m', evs) ->
  forallb is_loop_event evs = true.
Proof.
  induction rows as [|row rows IH]; intros idx acc m r m' evs.
  - simpl; unfold ret; intros E; injection E as _ _ <-; reflexivity.
  - rewrite process_rows_step.
    destruct (extract_info_from_content W (content_of row) m)
      as [[[info|e] m1] out1] eqn:Ex.
    + destruct (process_rows W (S idx) rows
                  (acc ++ [result_row_of row info]) m1)
        as [[r2 m2] out2] eqn:Er.
      intros E; injection E as _ _ <-.
      rewrite !forallb_app, (IH _ _ _ _ _ _ Er), loop_event_pacing.
      now rewrite (proj1 (extract_events W _ _ _ _ _ Ex)).
    + intros E; injection E as _ _ <-.
      exact (proj1 (extract_events W _ _ _ _ _ Ex)).
Qed.

(** The whole of [process_excel_file], by the outcome of the read and
    of the loop. *)
Lemma process_excel_file_cases input output m :
  process_excel_file W input output m =
  match read_excel W input with
  | Raise e => (Raise e, m, [EvPrint (MsgReading input); EvReadExcel input])
  | Ok rows =>
    let before :=
      [EvPrint (MsgReading input); EvReadExcel input;
       EvPrint (MsgRecordCount (List.length rows))] in
    match process_rows W 0 rows [] m with
    | (Raise e, m1, evs) => (Raise e, m1, before ++ evs)
    | (Ok out, m1, evs) =>
      let df := DataFrame_of_records out in
      let saving := [EvPrint (MsgSaving output); EvToExcel output df] in
      match to_excel W output df with
      | Some e => (Raise e, m1, before ++ evs ++ saving)
      | None =>
        match _print_statistics W df m1 with
        | (r, m2, evs2) =>
          (r, m2,
           before ++ evs ++ saving
           ++ [EvPrint MsgDone; EvPrint (MsgSaved output)] ++ evs2)
        end
      end
    end
  end.
Proof.
  destruct (read_excel W input) as [rows|e] eqn:Hread.
  - cbv zeta.
    destruct (process_rows W 0 rows [] m) as [[[out|e] m1] evs] eqn:Hloop.
    + rewrite (process_excel_file_run W input output rows m out m1 evs
                 Hread Hloop); cbv zeta.
      destruct (to_excel W output (DataFrame_of_records out));
        [simpl; rewrite <- ?app_assoc; reflexivity|].
      destruct (_print_statistics W (DataFrame_of_records out) m1)
        as [[r m2] evs2].
      simpl; rewrite <- ?app_assoc; reflexivity.
    + unfold process_excel_file, bind, print, emit, lift.
      rewrite Hread, Hloop; reflexivity.
  - unfold process_excel_file, bind, print, emit, lift.
    rewrite Hread; reflexivity.
Qed.

End MoreLoopFacts.

(* ================================================================== *)
(** ** Further properties of the reporter *)
(* ================================================================== *)

Lemma notna_sum_map (field : ResultRow -> pyval) (rows : list ResultRow) :
  notna_sum (map field rows) = present_count field rows.
Proof.
  unfold notna_sum, present_count.
  induction rows as [|r rows IH]; simpl; [reflexivity|].
  destruct (pd_isna (field r)); simpl; now rewrite IH.
Qed.

Lemma forallb_print_items (items : list (pyval * nat)) :
  forallb is_print
    (map (fun item => EvPrint (MsgDistEntry (fst item) (snd item))) items)
  = true.
Proof. induction items as [|i items IH]; simpl; auto. Qed.

Lemma forallb_print_distribution (W : Env) (header : message)
      (column : list pyval) :
  forallb is_print (distribution W header column) = true.
Proof.
  unfold distribution; destruct (0 <? notna_sum column); simpl;
    [apply forallb_print_items | reflexivity].
Qed.

Lemma tally_add_positive (w : pyval) (t : list (pyval * nat)) :
  Forall (fun entry => 1 <= snd entry) t ->
  Forall (fun entry => 1 <= snd entry) (tally_add w t).
Proof.
  induction 1 as [|[k n] t Hk Ht IH]; simpl.
  - repeat constructor.
  - destruct (pyval_eqb k w); constructor; simpl in *;
      try lia; assumption.
Qed.

Lemma tally_positive (column : list pyval) :
  Forall (fun entry => 1 <= snd entry) (tally column).
Proof.
  unfold tally.
  assert (H : forall t, Forall (fun entry => 1 <= snd entry) t ->
            Forall (fun entry => 1 <= snd entry)
              (fold_left (fun t v => if pd_isna v then t else tally_add v t)
                         column t)).
  { induction column as [|w column IH]; intros t Ht; simpl; [exact Ht|].
    apply IH; destruct (pd_isna w); [exact Ht | now apply tally_add_positive]. }
  apply H; constructor.
Qed.

Lemma tally_keys_present (column : list pyval) :
  forall k, In k (map fst (tally column)) -> pd_isna k = false.
Proof.
  unfold tally.
  assert (H : forall t, (forall k, In k (map fst t) -> pd_isna k = false) ->
            forall k,
              In k (map fst (fold_left
                (fun t v => if pd_isna v then t else tally_add v t) column t)) ->
              pd_isna k = false).
  { induction column as [|w column IH]; intros t Ht; simpl; [exact Ht|].
    apply IH; destruct (pd_isna w) eqn:Hw; [exact Ht|].
    intros k; rewrite (tally_add_keys w t Hw).
    destruct (existsb _ _); [apply Ht|].
    rewrite in_app_iff; intros [Hk|[<-|[]]]; auto. }
  apply H; intros k [].
Qed.

Lemma tally_count_absent (t : list (pyval * nat)) (v : pyval) :
  ~ In v (map fst t) -> tally_count t v = 0.
Proof.
  induction t as [|[k n] t IH]; simpl; [reflexivity|].
  intros Hn; destruct (pyval_eqb k v) eqn:E.
  - apply pyval_eqb_spec in E as [-> _]; tauto.
  - apply IH; tauto.
Qed.

Lemma tally_count_entry (t : list (pyval * nat)) (v : pyval) (n : nat) :
  NoDup (map fst t) -> pd_isna v = false -> In (v, n) t ->
  tally_count t v = n.
Proof.
  intros Hnd Hv; induction t as [|[k c] t IH]; simpl; [tauto|].
  inversion Hnd as [|? ? Hk Hnd']; subst.
  intros [E|Hin].
  - injection E as -> ->.
    assert (pyval_eqb v v = true) as ->
        by (apply pyval_eqb_spec; split; [reflexivity|];
            intros ->; discriminate Hv).
    rewrite (tally_count_absent t v Hk); lia.
  - assert (Hvk : In v (map fst t)) by (apply (in_map fst _ _ Hin)).
    destruct (pyval_eqb k v) eqn:E.
    + apply pyval_eqb_spec in E as [-> _]; contradiction.
    + now apply IH.
Qed.

Lemma NoDup_firstn {A : Type} (n : nat) (l : list A) :
  NoDup l -> NoDup (firstn n l).
Proof.
  intros H; rewrite <- (firstn_skipn n l) in H.
  exact (NoDup_app_remove_r _ _ H).
Qed.

Lemma In_firstn {A : Type} (n : nat) (l : list A) (x : A) :
  In x (firstn n l) -> In x l.
Proof.
  intros H; rewrite <- (firstn_skipn n l); apply in_or_app; now left.
Qed.

#[local] Arguments head {A} n l : simpl never.

Section MoreReporterFacts.

Variable W : Env.

(** The reporter only prints and leaves the model service alone,
    whether it ends normally or with [KeyError]. *)
Lemma print_statistics_only_prints (df : DataFrame) (m : ModelState W) :
  exists r evs,
    _print_statistics W df m = (r, m, evs) /\ forallb is_print evs = true.
Proof.
  unfold _print_statistics, bind, lift, print, emit, ret.
  destruct (df_getitem df col_line) as [c1|e1];
    [|eexists _, _; split; reflexivity].
  destruct (df_getitem df col_location) as [c2|e2];
    [|eexists _, _; split; reflexivity].
  destruct (df_getitem df col_noise_type) as [c3|e3];
    [|eexists _, _; split; reflexivity].
  destruct (df_getitem df col_vibration_type) as [c4|e4];
    [|eexists _, _; split; reflexivity].
  destruct (0 <? notna_sum c1), (0 <? notna_sum c3);
    rewrite ?print_items_run;
    eexists _, _; (split; [reflexivity|]); simpl;
    rewrite ?forallb_app, ?forallb_print_items; simpl;
    rewrite ?forallb_print_items; reflexivity.
Qed.

Lemma print_statistics_events (r : ResultRow) (results : list ResultRow)
      (m : ModelState W) :
  _print_statistics W (DataFrame_of_records (r :: results)) m
  = (Ok tt, m, statistics_events W (r :: results)).
Proof.
  rewrite print_statistics_nonempty; unfold statistics_events.
  now rewrite !notna_sum_map.
Qed.

End MoreReporterFacts.

(* ================================================================== *)
(** ** Further properties of the script *)
(* ================================================================== *)

(** X1: a completed run of the loop calls the model exactly once for
    each row whose content is text with a non-whitespace character, in
    table order, with the prompt built from that content, and for no
    other row; a failed call is not repeated. *)
Theorem one_model_call_per_text_record (W : Env) (idx : nat)
        (rows : list Series) (acc out : list ResultRow)
        (m m' : ModelState W) (evs : list event) :
  process_rows W idx rows acc m = (Ok out, m', evs) ->
  filter is_respond evs
  = map (fun prompt => EvRespond prompt) (prompts_of rows).
Proof.
  intros E.
  destruct (process_rows_extracted W rows idx acc m _ _ _ E)
    as (_ & _ & _ & H); exact H.
Qed.

Lemma one_model_call_per_text_record_witness :
  let W := world (Ok 0) always_fails [] in
  let rows := [text_row; empty_row; text_row; missing_row] in
  exists out m' evs,
    process_rows W 0 rows [] 0 = (Ok out, m', evs)
    /\ m' = 2
    /\ filter is_respond evs
       = map (fun prompt => EvRespond prompt) (prompts_of rows).
Proof.
  intros W rows.
  eexists _, _, _; split; [vm_compute; reflexivity|].
  split; [reflexivity|].
  eapply (one_model_call_per_text_record W 0 rows [] _ 0).
  vm_compute; reflexivity.
Defined.

(** X2: one extraction calls the model if and only if the content is
    text that is not all whitespace; missing cells, blank text and
    numbers never reach the model. *)
Theorem model_called_iff_text_not_blank (W : Env) (content : pyval)
        (m : ModelState W) :
  (exists prompt,
      In (EvRespond prompt) (snd (extract_info_from_content W content m)))
  <-> exists s, content = VStr s /\ forallb isspace s = false.
Proof.
  destruct (extract_info_from_content W content m) as [[r m'] out] eqn:E.
  pose proof (extract_responds W content m r m' out E) as Hf; simpl snd.
  assert (Hin : forall prompt,
             In (EvRespond prompt) out
             <-> In (EvRespond prompt) (filter is_respond out)).
  { intros prompt; rewrite filter_In; simpl; tauto. }
  split.
  - intros [prompt Hp]; apply Hin in Hp; rewrite Hf in Hp.
    destruct content as [| |s|z]; simpl in Hp; try contradiction.
    exists s; split; [reflexivity|].
    apply truthy_strip_iff.
    destruct (truthy (strip s)); [reflexivity | contradiction].
  - intros (s & -> & Hs).
    apply truthy_strip_iff in Hs.
    exists (build_prompt s); apply Hin; rewrite Hf; simpl.
    rewrite Hs; now left.
Qed.

(** X3: no row produced by the loop holds the string ['null'] in any of
    its four extracted fields, whatever the model answers. *)
Theorem extracted_fields_never_null_string (W : Env) (idx : nat)
        (rows : list Series) (out : list ResultRow)
        (m m' : ModelState W) (evs : list event) :
  process_rows W idx rows [] m = (Ok out, m', evs) ->
  Forall no_null_string out.
Proof.
  intros E.
  destruct (process_rows_extracted W rows idx [] m _ _ _ E)
    as (new & -> & HF & _); simpl; clear E.
  induction HF as [|row r rows new (info & m0 & m1 & ev & Hx & ->) _ IH];
    constructor; [|exact IH].
  exact (extract_never_null W _ _ _ _ _ Hx).
Qed.

Lemma extracted_fields_never_null_string_witness :
  exists out,
    process_rows (world (Ok 0) always_answers []) 0 [text_row; empty_row] [] 0
    = (Ok out, 1,
       [EvRespond (build_prompt (lit "1号线噪音很大，小区是望京花园"))])
    /\ Forall no_null_string out.
Proof.
  eexists; split; [vm_compute; reflexivity|].
  eapply (extracted_fields_never_null_string
            (world (Ok 0) always_answers []) 0 [text_row; empty_row] _ 0).
  vm_compute; reflexivity.
Defined.

(** X4: when the model answers with a mapping that lacks the key of a
    field, that field comes out absent and the extraction succeeds; no
    [KeyError] is raised. *)
Theorem missing_answer_key_gives_absent_field (W : Env) (s : pystr)
        (m m' : ModelState W) (d : list (string * pyval)) :
  truthy (strip s) = true ->
  respond W m (build_prompt s) = (Responded (PDict d), m') ->
  exists info,
    extract_info_from_content W (VStr s) m
    = (Ok info, m', [EvRespond (build_prompt s)])
    /\ (~ In "line"%string (map fst d) -> xinfo_line info = VNone)
    /\ (~ In "location"%string (map fst d) -> xinfo_location info = VNone)
    /\ (~ In "noise_type"%string (map fst d) -> xinfo_noise_type info = VNone)
    /\ (~ In "vibration_type"%string (map fst d) ->
        xinfo_vibration_type info = VNone).
Proof.
  intros Ht Hr.
  rewrite (extract_text W s m Ht), Hr; simpl.
  eexists; split; [reflexivity|]; simpl.
  repeat split; intros Hn; now rewrite (dict_get_missing d _ Hn).
Qed.

Lemma missing_answer_key_gives_absent_field_witness :
  let W := world (Ok 0) (fun _ => Responded partial_answer) [] in
  let s := lit "13号线晚上振动" in
  extract_info_from_content W (VStr s) 0
  = (Ok {| xinfo_line := VStr (lit "13号线");
           xinfo_location := VNone;
           xinfo_noise_type := VNone;
           xinfo_vibration_type := VNone |},
     1, [EvRespond (build_prompt s)]).
Proof.
  intros W s.
  destruct (missing_answer_key_gives_absent_field W s 0 1
              [("line", VStr (lit "13号线"))]%string eq_refl eq_refl)
    as (info & E & _ & H2 & H3 & H4).
  rewrite E; do 3 f_equal.
  destruct info as [l loc n v]; simpl in *.
  rewrite H2, H3, H4
    by (simpl; intros [H|[]]; discriminate H).
  vm_compute in E; injection E as <- _ _ _; reflexivity.
Defined.

(** X5: on a table whose content cells are all missing or blank (in
    particular a table without the content column) the loop never calls
    the model and leaves its state untouched; every row comes out with
    four absent fields, and the pauses are still taken. *)
Theorem blank_table_never_calls_model (W : Env) (rows : list Series) :
  Forall (fun row => skipped (content_of row) = true) rows ->
  forall (idx : nat) (acc : list ResultRow) (m : ModelState W),
    process_rows W idx rows acc m
    = (Ok (acc ++ map (fun row => result_row_of row all_absent) rows), m,
       flat_map pacing (seq idx (List.length rows))).
Proof.
  induction 1 as [|row rows Hrow _ IH]; intros idx acc m.
  - simpl; unfold ret; now rewrite app_nil_r.
  - rewrite process_rows_step, (extract_skipped W _ m Hrow), IH.
    simpl; now rewrite <- app_assoc.
Qed.

Lemma blank_table_never_calls_model_witness :
  let W := world (Ok 0) always_answers [] in
  let rows := repeat phone_only_row 10 ++ [empty_row; missing_row] in
  process_rows W 0 rows [] 0
  = (Ok ([] ++ map (fun row => result_row_of row all_absent) rows), 0,
     flat_map pacing (seq 0 (List.length rows))).
Proof.
  intros W rows.
  apply (blank_table_never_calls_model W rows).
  repeat constructor.
Defined.

(** X6: when a content cell holds a number, [process_excel_file] ends
    with [AttributeError] at that row: the rows after it are not
    processed, the rows extracted before it are lost, and nothing is
    handed to the writer. *)
Theorem number_cell_discards_earlier_rows (W : Env) (input output : pystr)
        (pre post : list Series) (row : Series) (z : Z)
        (m m1 : ModelState W) (out1 : list ResultRow) (ev1 : list event) :
  read_excel W input = Ok (pre ++ row :: post) ->
  process_rows W 0 pre [] m = (Ok out1, m1, ev1) ->
  content_of row = VNum z ->
  process_excel_file W input output m
  = (Raise (AttributeError "strip"), m1,
     [EvPrint (MsgReading input); EvReadExcel input;
      EvPrint (MsgRecordCount (List.length (pre ++ row :: post)))] ++ ev1).
Proof.
  intros Hread Hpre Hc.
  rewrite process_excel_file_cases, Hread; cbv zeta.
  rewrite process_rows_app, Hpre.
  rewrite (process_rows_number_cell W _ row post out1 m1 z Hc).
  now rewrite app_nil_r.
Qed.

Lemma number_cell_discards_earlier_rows_witness :
  let W := world (Ok 0) always_answers [text_row; number_row; text_row] in
  process_excel_file W input_file output_file 0
  = (Raise (AttributeError "strip"), 1,
     [EvPrint (MsgReading input_file); EvReadExcel input_file;
      EvPrint (MsgRecordCount
                 (List.length ([text_row] ++ number_row :: [text_row])))]
     ++ [EvRespond (build_prompt (lit "1号线噪音很大，小区是望京花园"))]).
Proof.
  intros W.
  apply (number_cell_discards_earlier_rows W input_file output_file
           [text_row] [text_row] number_row 12345 0 1
           [result_row_of text_row
              {| xinfo_line := VStr (lit "1号线");
                 xinfo_location := VStr (lit "望京花园");
                 xinfo_noise_type := VStr (lit "列车噪音");
                 xinfo_vibration_type := VNone |}]);
    reflexivity.
Defined.

(** X7: the pacing has no influence on the data: started from any two
    row counters, the loop gives the same outcome and leaves the model
    service in the same state, and the two runs differ only in their
    pause events. *)
Theorem pacing_does_not_change_results (W : Env) (rows : list Series) :
  forall (idx idx' : nat) (acc : list ResultRow) (m : ModelState W),
    fst (process_rows W idx rows acc m) = fst (process_rows W idx' rows acc m)
    /\ filter (fun ev => negb (is_pacing ev))
              (snd (process_rows W idx rows acc m))
       = filter (fun ev => negb (is_pacing ev))
                (snd (process_rows W idx' rows acc m)).
Proof.
  induction rows as [|row rows IH]; intros idx idx' acc m.
  - split; reflexivity.
  - rewrite !process_rows_step.
    destruct (extract_info_from_content W (content_of row) m)
      as [[[info|e] m1] out1]; [|split; reflexivity].
    specialize (IH (S idx) (S idx') (acc ++ [result_row_of row info]) m1).
    destruct (process_rows W (S idx) rows (acc ++ [result_row_of row info]) m1)
      as [[r2 m2] out2].
    destruct (process_rows W (S idx') rows
                (acc ++ [result_row_of row info]) m1) as [[r3 m3] out3].
    simpl in IH |- *; destruct IH as [Hr Hf].
    injection Hr as -> ->; split; [reflexivity|].
    now rewrite !filter_app, !pacing_only_pacing, Hf.
Qed.

Lemma loop_events_filters (l : list event) :
  forallb is_loop_event l = true ->
  filter is_write l = []
  /\ filter is_call_or_write l = filter is_respond l.
Proof.
  induction l as [|ev l IH]; simpl; [split; reflexivity|].
  intros H; apply andb_true_iff in H as [Hev Hl].
  destruct (IH Hl) as [H1 H2].
  destruct ev; simpl in *; try discriminate; rewrite ?H1, ?H2;
    split; reflexivity.
Qed.

Lemma print_events_filters (l : list event) :
  forallb is_print l = true ->
  filter is_write l = []
  /\ filter is_respond l = []
  /\ filter is_call_or_write l = [].
Proof.
  induction l as [|ev l IH]; simpl; [repeat split; reflexivity|].
  intros H; apply andb_true_iff in H as [Hev Hl].
  destruct (IH Hl) as (H1 & H2 & H3).
  destruct ev; simpl in *; try discriminate; repeat split; assumption.
Qed.

(** X8: when the input table cannot be read, [main] ends with the
    exception of the reader right after connecting: no record is
    extracted and nothing is written. *)
Theorem read_failure_is_fatal (W : Env) (m0 : ModelState W) (e : exn) :
  lms_llm W = Ok m0 ->
  read_excel W input_file = Raise e ->
  main W
  = (Raise e,
     [EvPrint (MsgConnecting default_model_name); EvConnect;
      EvPrint MsgConnected;
      EvPrint (MsgReading input_file); EvReadExcel input_file;
      EvPrint (MsgMainError e)]).
Proof.
  intros Hc Hr; unfold main, _initialize_model; rewrite Hc.
  rewrite process_excel_file_cases, Hr; reflexivity.
Qed.

Lemma read_failure_is_fatal_witness :
  main (unreadable_world (CapabilityError 2))
  = (Raise (CapabilityError 2),
     [EvPrint (MsgConnecting default_model_name); EvConnect;
      EvPrint MsgConnected;
      EvPrint (MsgReading input_file); EvReadExcel input_file;
      EvPrint (MsgMainError (CapabilityError 2))]).
Proof.
  apply (read_failure_is_fatal (unreadable_world (CapabilityError 2)) 0);
    reflexivity.
Defined.

(** X9: when the result table cannot be written, [main] ends with the
    exception of the writer after every record has been processed; the
    statistics are not printed. *)
Theorem write_failure_is_fatal (W : Env) (m0 m1 : ModelState W)
        (rows : list Series) (out : list ResultRow) (evs : list event)
        (e : exn) :
  lms_llm W = Ok m0 ->
  read_excel W input_file = Ok rows ->
  process_rows W 0 rows [] m0 = (Ok out, m1, evs) ->
  to_excel W output_file (DataFrame_of_records out) = Some e ->
  main W
  = (Raise e,
     startup_events (List.length rows) ++ evs
     ++ [EvPrint (MsgSaving output_file);
         EvToExcel output_file (DataFrame_of_records out);
         EvPrint (MsgMainError e)]).
Proof.
  intros Hc Hr Hl Hw; unfold main, _initialize_model; rewrite Hc.
  rewrite process_excel_file_cases, Hr; cbv zeta; rewrite Hl, Hw.
  unfold startup_events; simpl; now rewrite <- !app_assoc.
Qed.

Lemma write_failure_is_fatal_witness :
  main (unwritable_world (CapabilityError 3) [empty_row; missing_row])
  = (Raise (CapabilityError 3),
     startup_events 2 ++ []
     ++ [EvPrint (MsgSaving output_file);
         EvToExcel output_file
           (DataFrame_of_records
              [result_row_of empty_row all_absent;
               result_row_of missing_row all_absent]);
         EvPrint (MsgMainError (CapabilityError 3))]).
Proof.
  apply (write_failure_is_fatal
           (unwritable_world (CapabilityError 3) [empty_row; missing_row])
           0 0 [empty_row; missing_row]); reflexivity.
Defined.

(** X10: with the model connected, a readable table of at least one row
    whose content cells are text or missing, and a writable output,
    [main] ends normally whatever the model answers: it processes every
    row, writes the table once and prints the statistics of the rows it
    wrote. *)
Theorem run_completes_on_text_table (W : Env) (m0 : ModelState W)
        (rows : list Series) :
  lms_llm W = Ok m0 ->
  read_excel W input_file = Ok rows ->
  rows <> [] ->
  Forall (fun row => text_or_missing (content_of row)) rows ->
  (forall df, to_excel W output_file df = None) ->
  exists out m1 evs,
    process_rows W 0 rows [] m0 = (Ok out, m1, evs)
    /\ main W
       = (Ok tt,
          startup_events (List.length rows) ++ evs
          ++ [EvPrint (MsgSaving output_file);
              EvToExcel output_file (DataFrame_of_records out);
              EvPrint MsgDone; EvPrint (MsgSaved output_file)]
          ++ statistics_events W out).
Proof.
  intros Hc Hr Hne Hall Hw.
  destruct (process_rows_total W rows 0 [] m0 Hall) as (out & m1 & evs & E).
  exists out, m1, evs; split; [exact E|].
  destruct (process_rows_ok W rows 0 [] m0 _ _ _ E) as (new & Hn & HF & _).
  simpl in Hn; subst new.
  destruct out as [|r out];
    [inversion HF; subst; contradiction|].
  unfold main, _initialize_model; rewrite Hc.
  rewrite process_excel_file_cases, Hr; cbv zeta.
  rewrite E, Hw, print_statistics_events.
  unfold startup_events; simpl; rewrite <- ?app_assoc; reflexivity.
Qed.

Lemma run_completes_on_text_table_witness :
  let W := world (Ok 0) always_fails [text_row; empty_row] in
  exists out m1 evs,
    process_rows W 0 [text_row; empty_row] [] 0 = (Ok out, m1, evs)
    /\ main W
       = (Ok tt,
          startup_events 2 ++ evs
          ++ [EvPrint (MsgSaving output_file);
              EvToExcel output_file (DataFrame_of_records out);
              EvPrint MsgDone; EvPrint (MsgSaved output_file)]
          ++ statistics_events W out).
Proof.
  intros W.
  apply (run_completes_on_text_table W 0 [text_row; empty_row]);
    try reflexivity; [discriminate | repeat constructor].
Defined.

(** X11: the reporter is a pure read: on every table, whether it ends
    normally or with [KeyError], it only prints and leaves the state of
    the model service as it was. *)
Theorem statistics_only_print (W : Env) (df : DataFrame) (m : ModelState W) :
  exists r evs,
    _print_statistics W df m = (r, m, evs)
    /\ forallb is_print evs = true
    /\ filter is_respond evs = []
    /\ filter is_write evs = [].
Proof.
  destruct (print_statistics_only_prints W df m) as (r & evs & E & Hp).
  destruct (print_events_filters evs Hp) as (H1 & H2 & _).
  exists r, evs; auto.
Qed.

(** X12: for a table of at least one row the reporter ends normally and
    prints the number of rows, then for each of the four fields the
    number of rows where it is not missing, then the frequency table of
    the line and of the noise type; a frequency table is printed exactly
    when its field is present in some row. *)
Theorem statistics_counts_are_exact (W : Env) (rows : list ResultRow)
        (m : ModelState W) :
  rows <> [] ->
  _print_statistics W (DataFrame_of_records rows) m
  = (Ok tt, m, statistics_events W rows).
Proof.
  destruct rows as [|r rows]; [contradiction|].
  intros _; apply print_statistics_events.
Qed.

Lemma statistics_counts_are_exact_witness :
  let W := world (Ok 0) always_answers [] in
  let rows :=
    [result_row_of text_row all_absent;
     result_row_of empty_row
       {| xinfo_line := VStr (lit "1号线");
          xinfo_location := VNone;
          xinfo_noise_type := VNone;
          xinfo_vibration_type := VNone |}] in
  _print_statistics W (DataFrame_of_records rows) 0
  = (Ok tt, 0, statistics_events W rows).
Proof.
  intros W rows.
  apply (statistics_counts_are_exact W rows 0); discriminate.
Defined.

(** X13: provided the library sort only reorders its input, every entry
    of a printed frequency table is a value that is not missing, listed
    once, with the exact number of times it occurs in the column, which
    is at least one; at most ten entries are printed. *)
Theorem frequency_entries_are_exact (W : Env) (column : list pyval) :
  (forall t, Permutation (sort_values W t) t) ->
  List.length (head 10 (value_counts W column)) <= 10
  /\ NoDup (map fst (head 10 (value_counts W column)))
  /\ forall value count,
       In (value, count) (head 10 (value_counts W column)) ->
       pd_isna value = false
       /\ count = occurrences value column
       /\ 1 <= count.
Proof.
  intros Hperm; unfold head, value_counts.
  pose proof (Hperm (tally column)) as Hp.
  split; [apply firstn_le_length|split].
  - rewrite <- firstn_map; apply NoDup_firstn.
    apply (Permutation_NoDup (l := map fst (tally column)));
      [symmetry; now apply Permutation_map | apply tally_keys_NoDup].
  - intros value count Hin.
    apply In_firstn in Hin.
    apply (Permutation_in _ Hp) in Hin.
    assert (Hv : pd_isna value = false)
      by (apply (tally_keys_present column), (in_map fst _ _ Hin)).
    repeat split; [exact Hv| |].
    + rewrite <- (tally_count_exact value column Hv).
      symmetry; apply tally_count_entry;
        [apply tally_keys_NoDup | exact Hv | exact Hin].
    + pose proof (tally_positive column) as Hpos.
      rewrite Forall_forall in Hpos; exact (Hpos _ Hin).
Qed.

Lemma frequency_entries_are_exact_witness :
  let W := world (Ok 0) always_answers [] in
  let column :=
    [VStr (lit "1号线"); VNone; VStr (lit "13号线"); VStr (lit "1号线")] in
  List.length (head 10 (value_counts W column)) <= 10
  /\ NoDup (map fst (head 10 (value_counts W column)))
  /\ forall value count,
       In (value, count) (head 10 (value_counts W column)) ->
       pd_isna value = false
       /\ count = occurrences value column
       /\ 1 <= count.
Proof.
  intros W column.
  apply (frequency_entries_are_exact W column).
  intros t; apply Permutation_refl.
Defined.

(** X14: in every run of [main] the result table is handed to the
    writer at most once, exactly once when the run ends normally, and
    only after the last call of the model. *)
Theorem table_written_once_after_all_calls (W : Env) :
  let evs := snd (main W) in
  filter is_call_or_write evs = filter is_respond evs ++ filter is_write evs
  /\ List.length (filter is_write evs) <= 1
  /\ (fst (main W) = Ok tt -> List.length (filter is_write evs) = 1).
Proof.
  unfold main, _initialize_model.
  destruct (lms_llm W) as [m0|e0];
    [|simpl; repeat split; [lia | discriminate]].
  rewrite process_excel_file_cases.
  destruct (read_excel W input_file) as [rows|e1];
    [|simpl; repeat split; [lia | discriminate]].
  cbv zeta.
  destruct (process_rows W 0 rows [] m0) as [[[out|e2] m1] el] eqn:Hloop;
    pose proof (process_rows_events W rows 0 [] m0 _ _ _ Hloop) as Hev;
    destruct (loop_events_filters el Hev) as [Hw Hcw].
  - destruct (to_excel W output_file (DataFrame_of_records out)) as [e3|].
    + simpl; rewrite !filter_app, Hw, Hcw; simpl; rewrite ?app_nil_r.
      repeat split; try lia; discriminate.
    + destruct (print_statistics_only_prints W (DataFrame_of_records out) m1)
        as (r & evs2 & -> & Hp).
      destruct (print_events_filters evs2 Hp) as (Hw2 & Hr2 & Hcw2).
      assert (Hgoal :
        forall tail, forallb is_print tail = true ->
          let evs :=
            [EvPrint (MsgConnecting default_model_name); EvConnect;
             EvPrint MsgConnected]
            ++ ([EvPrint (MsgReading input_file); EvReadExcel input_file;
                 EvPrint (MsgRecordCount (List.length rows))]
                ++ el
                ++ [EvPrint (MsgSaving output_file);
                    EvToExcel output_file (DataFrame_of_records out)]
                ++ [EvPrint MsgDone; EvPrint (MsgSaved output_file)] ++ tail)
          in
          filter is_call_or_write evs
          = filter is_respond evs ++ filter is_write evs
          /\ List.length (filter is_write evs) = 1).
      { intros tail Ht.
        destruct (print_events_filters tail Ht) as (T1 & T2 & T3).
        simpl; rewrite !filter_app, Hw, Hcw; simpl; rewrite T1, T2, T3.
        rewrite ?app_nil_r; split; reflexivity. }
      destruct r as [[]|e4]; cbv zeta; cbn [fst snd].
      * pose proof (Hgoal evs2 Hp) as G; cbv zeta in G.
        destruct G as [G1 G2]; rewrite G1, G2.
        repeat split; lia.
      * assert (Ht : forallb is_print (evs2 ++ [EvPrint (MsgMainError e4)])
                     = true)
          by (rewrite forallb_app, Hp; reflexivity).
        pose proof (Hgoal _ Ht) as G; cbv zeta in G.
        destruct G as [G1 G2].
        rewrite <- ?app_assoc; rewrite <- ?app_assoc in G1, G2.
        rewrite G1, G2; repeat split; try lia; discriminate.
  - simpl; rewrite !filter_app, Hw, Hcw; simpl; rewrite ?app_nil_r.
    repeat split; try lia; discriminate.
Qed.

Lemma extract_state (W : Env) (content : pyval) (m m1 : ModelState W)
      (r : result ExtractedInfo) (out1 : list event) :
  extract_info_from_content W content m = (r, m1, out1) ->
  m1 = match needs_model content with
       | Some s => snd (respond W m (build_prompt s))
       | None => m
       end.
Proof.
  rewrite extract_cases.
  destruct content as [| |s|z]; simpl needs_model; cbv beta iota;
    try (intros E; injection E as _ <- _; reflexivity).
  destruct (truthy (strip s)); cbv beta iota;
    [|intros E; injection E as _ <- _; reflexivity].
  destruct (respond W m (build_prompt s)) as [[p|e] m2];
    [destruct (well_formed p)|];
    intros E; injection E as _ <- _; reflexivity.
Qed.

(** X15: the loop uses the model service only through its calls: after
    a completed run the service is in the state the prompts of the table,
    answered in table order, leave it in. *)
Theorem model_state_follows_the_calls (W : Env) (rows : list Series) :
  forall (idx : nat) (acc out : list ResultRow) (m m' : ModelState W)
         (evs : list event),
    process_rows W idx rows acc m = (Ok out, m', evs) ->
    m' = state_after W (prompts_of rows) m.
Proof.
  induction rows as [|row rows IH]; intros idx acc out m m' evs.
  - simpl; unfold ret; intros E; injection E as _ <- _; reflexivity.
  - rewrite process_rows_step.
    destruct (extract_info_from_content W (content_of row) m)
      as [[[info|e] m1] out1] eqn:Ex; [|discriminate].
    destruct (process_rows W (S idx) rows (acc ++ [result_row_of row info]) m1)
      as [[r2 m2] out2] eqn:Er.
    intros E; injection E as -> <- _.
    rewrite (IH _ _ _ _ _ _ Er), (extract_state W _ _ _ _ _ Ex).
    simpl prompts_of; destruct (needs_model (content_of row)); reflexivity.
Qed.

Lemma model_state_follows_the_calls_witness :
  let W := world (Ok 0) always_answers [] in
  let rows := [text_row; empty_row; text_row; missing_row; text_row] in
  exists out evs,
    process_rows W 0 rows [] 0 = (Ok out, 3, evs)
    /\ 3 = state_after W (prompts_of rows) 0.
Proof.
  intros W rows.
  eexists _, _; split; [vm_compute; reflexivity|].
  eapply (model_state_follows_the_calls W rows 0 [] _ 0 3).
  vm_compute; reflexivity.
Defined.

(** X16: the loop can only end with an exception through a content
    cell that is neither text nor missing, and the exception is then the
    [AttributeError] of [strip]: no failure of the model ever leaves the
    loop. *)
Theorem loop_raises_only_on_number_cell (W : Env) (rows : list Series) :
  forall (idx : nat) (acc : list ResultRow) (m : ModelState W),
    match fst (fst (process_rows W idx rows acc m)) with
    | Ok out =>
      Forall (fun row => text_or_missing (content_of row)) rows
    | Raise e =>
      e = AttributeError "strip"
      /\ Exists (fun row => exists z, content_of row = VNum z) rows
    end.
Proof.
  induction rows as [|row rows IH]; intros idx acc m.
  - simpl; constructor.
  - rewrite process_rows_step.
    destruct (content_of row) as [| |s|z] eqn:Hc.
    1-3: destruct (extract_total W (content_of row) m) as (info & m1 & out1 & Ex & _);
      [rewrite Hc; exact I|];
      rewrite Hc in Ex; rewrite Ex;
      specialize (IH (S idx) (acc ++ [result_row_of row info]) m1);
      destruct (process_rows W (S idx) rows
                  (acc ++ [result_row_of row info]) m1)
        as [[[out|e] m2] out2]; simpl in IH |- *;
      [constructor; [rewrite Hc; exact I | exact IH]
      |destruct IH as [-> Hex]; split; [reflexivity | now apply Exists_cons_tl]].
    rewrite extract_number; simpl.
    split; [reflexivity | apply Exists_cons_hd; now exists z].
Qed.

(** X17: the prompt embeds the text of the record between the fixed
    instruction and the fixed field list, so two records with different
    text never share a prompt. *)
Theorem build_prompt_injective (s t : pystr) :
  build_prompt s = build_prompt t -> s = t.
Proof.
  unfold build_prompt; intros H.
  apply app_inv_head in H; now apply app_inv_tail in H.
Qed.

Lemma build_prompt_injective_witness :
  lit "1号线" = lit "1号线".
Proof.
  apply (build_prompt_injective (lit "1号线") (lit "1号线")); reflexivity.
Defined.
